(** * Finalizer helpers of ingress-gce: [pkg/utils/common/finalizer.go]

    A shallow embedding of the Go package [common] (file [finalizer.go]) and
    the proofs of its finalizer contract: the presence predicates, the
    ensure-present / ensure-absent operations on Ingress and Service objects,
    and the patch they send to the API server.

    Go pointers are locations in typed heaps, so that "the caller's object
    is left alone" is a statement about the heap and not a triviality of a
    functional language.  Every call of a client's [Patch] method is appended
    to a request log, which is what "number of store writes" refers to. *)

From Stdlib Require Import ZArith Lia.
From stdpp Require Import base option list strings gmap.

(** ** Go values *)

(** Go's [error]: [nil] or a message. *)
Definition error : Type := option string.

(** [[]byte]. *)
Definition Bytes : Type := string.

(** Heap locations.  A Go pointer is [nil] or a location. *)
Abbreviation loc := positive.
Definition ptr : Type := option loc.

(** [p != nil] *)
Definition not_nil {A : Type} (p : option A) : bool :=
  match p with
  | Some _ => true
  | None => false
  end.

(** [append(s, x)], observed through the contents of the slice it returns.
    A slice is modelled by its contents; a [nil] slice and an empty one are
    both [[]]. *)
Definition append (s : list string) (x : string) : list string := s ++ [x].

(** ** k8s.io/apimachinery/pkg/apis/meta/v1 *)
Module meta_v1.

(** [meta_v1.Time], an instant. *)
Definition Time : Type := Z.

(** The fields of [ObjectMeta] the package reads or writes. *)
Record ObjectMeta : Type := mkObjectMeta {
  Name : string;
  Namespace : string;
  DeletionTimestamp : option Time;
  Finalizers : list string
}.

Definition set_Finalizers (fs : list string) (m : ObjectMeta) : ObjectMeta :=
  {| Name := Name m; Namespace := Namespace m;
     DeletionTimestamp := DeletionTimestamp m; Finalizers := fs |}.

(** [meta_v1.PatchOptions{}] *)
Inductive PatchOptions : Type := PatchOptions_zero.

End meta_v1.

(** ** k8s.io/apimachinery/pkg/types *)
Module types.

Inductive PatchType : Type :=
| JSONPatchType
| MergePatchType
| StrategicMergePatchType
| ApplyPatchType.

End types.

(** ** k8s.io/api/networking/v1beta1 *)
Module v1beta1.

(** An Ingress: its metadata, and the spec and status, which the package
    only copies and encodes. *)
Record Ingress : Type := mkIngress {
  ObjectMeta : meta_v1.ObjectMeta;
  Spec : string;
  Status : string
}.

Definition set_ObjectMeta (m : meta_v1.ObjectMeta) (i : Ingress) : Ingress :=
  {| ObjectMeta := m; Spec := Spec i; Status := Status i |}.

End v1beta1.

(** ** k8s.io/api/core/v1 *)
Module corev1.

Record Service : Type := mkService {
  ObjectMeta : meta_v1.ObjectMeta;
  Spec : string;
  Status : string
}.

Definition set_ObjectMeta (m : meta_v1.ObjectMeta) (s : Service) : Service :=
  {| ObjectMeta := m; Spec := Spec s; Status := Status s |}.

End corev1.

(** ** k8s.io/kubernetes/pkg/util/slice *)
Module slice.

(** [modifier != nil && modifier(item) == s] *)
Definition modified_is (modifier : option (string → string)) (item s : string) : bool :=
  match modifier with
  | Some f => bool_decide (f item = s)
  | None => false
  end.

(** [ContainsString]: the loop returns at the first item that equals [s],
    directly or after [modifier]. *)
Fixpoint ContainsString (slice : list string) (s : string)
    (modifier : option (string → string)) : bool :=
  match slice with
  | [] => false
  | item :: rest =>
      if bool_decide (item = s) then true
      else if modified_is modifier item s then true
      else ContainsString rest s modifier
  end.

(** The loop of [RemoveString]; [newSlice] is the slice built so far. *)
Fixpoint RemoveString_loop (newSlice slice : list string) (s : string)
    (modifier : option (string → string)) : list string :=
  match slice with
  | [] => newSlice
  | item :: rest =>
      if bool_decide (item = s) then RemoveString_loop newSlice rest s modifier
      else if modified_is modifier item s then RemoveString_loop newSlice rest s modifier
      else RemoveString_loop (append newSlice item) rest s modifier
  end.

(** [RemoveString] starts from [make([]string, 0)]; it returns [nil] for an
    empty result, which is [[]] here as well. *)
Definition RemoveString (slice : list string) (s : string)
    (modifier : option (string → string)) : list string :=
  RemoveString_loop [] slice s modifier.

End slice.

(** ** Encoders: encoding/json and apimachinery's strategicpatch *)

(** The [dataStruct] argument of [CreateTwoWayMergePatch] selects the schema. *)
Inductive Schema : Type :=
| Schema_Ingress
| Schema_Service.

(** The encoders are external; the package only passes their results on and
    returns on their errors.  A Go result pair [(value, err)] is a pair. *)
Class Encoders : Type := {
  json_Marshal_Ingress : v1beta1.Ingress → Bytes * error;
  json_Marshal_Service : corev1.Service → Bytes * error;
  CreateTwoWayMergePatch : Bytes → Bytes → Schema → Bytes * error
}.

(** ** The API server seen through client-go *)

(** One call of a client's [Patch] method: the resource collection, and the
    arguments [name], [pt], [data] and [subresources...]. *)
Record PatchRequest : Type := mkPatchRequest {
  req_resource : Schema;
  req_name : string;
  req_type : types.PatchType;
  req_data : Bytes;
  req_subresources : list string
}.

Section Clients.

(** The state of the store behind the clients: anything. *)
Context {Cluster : Type}.

(** [client.IngressInterface]: the [Patch] method.  It answers with the
    updated object and an error, and may change the store. *)
Record IngressInterface : Type := mkIngressInterface {
  Ingress_Patch :
    string → types.PatchType → Bytes → meta_v1.PatchOptions → list string →
    Cluster → (option v1beta1.Ingress * error) * Cluster
}.

(** [coreclient.ServiceInterface] *)
Record ServiceInterface : Type := mkServiceInterface {
  Service_Patch :
    string → types.PatchType → Bytes → meta_v1.PatchOptions → list string →
    Cluster → (option corev1.Service * error) * Cluster
}.

(** [coreclient.CoreV1Interface] and [kubernetes.Interface] *)
Record CoreV1Interface : Type := mkCoreV1Interface {
  Services : string → ServiceInterface
}.

Record kubernetes_Interface : Type := mkKubernetesInterface {
  CoreV1 : CoreV1Interface
}.

(** ** The world: Go heap, store, request log *)
Record World : Type := mkWorld {
  ingresses : gmap loc v1beta1.Ingress;
  services : gmap loc corev1.Service;
  metas : gmap loc meta_v1.ObjectMeta;
  cluster : Cluster;
  requests : list PatchRequest
}.

Definition set_ingresses (h : gmap loc v1beta1.Ingress) (w : World) : World :=
  {| ingresses := h; services := services w; metas := metas w;
     cluster := cluster w; requests := requests w |}.

Definition set_services (h : gmap loc corev1.Service) (w : World) : World :=
  {| ingresses := ingresses w; services := h; metas := metas w;
     cluster := cluster w; requests := requests w |}.

Definition set_metas (h : gmap loc meta_v1.ObjectMeta) (w : World) : World :=
  {| ingresses := ingresses w; services := services w; metas := h;
     cluster := cluster w; requests := requests w |}.

(** The store moves to [c] and the log gains [r]. *)
Definition sent (r : PatchRequest) (c : Cluster) (w : World) : World :=
  {| ingresses := ingresses w; services := services w; metas := metas w;
     cluster := c; requests := requests w ++ [r] |}.

(** ** Computations: state passing; [None] is a nil-pointer panic *)
Definition M (A : Type) : Type := World → option (A * World).

Definition ret {A : Type} (a : A) : M A := λ w, Some (a, w).

Definition bind {A B : Type} (m : M A) (k : A → M B) : M B :=
  λ w, match m w with
       | Some (a, w') => k a w'
       | None => None
       end.

End Clients.

Arguments World : clear implicits.
Arguments M : clear implicits.
Arguments IngressInterface : clear implicits.
Arguments ServiceInterface : clear implicits.
Arguments CoreV1Interface : clear implicits.
Arguments kubernetes_Interface : clear implicits.

Declare Scope go_scope.
Delimit Scope go_scope with go.
Notation "x <- m ;; k" := (bind m (λ x, k))
  (at level 100, m at next level, right associativity) : go_scope.
Notation "m ;; k" := (bind m (λ _, k))
  (at level 100, right associativity) : go_scope.

(** ** Package [common], file [finalizer.go] *)

(** [FinalizerKey] is the string representing the Ingress finalizer. *)
Definition FinalizerKey : string := "networking.gke.io/ingress-finalizer".
(** [FinalizerKeyV2]: Ingress with V2 finalizer uses V2 frontend naming scheme. *)
Definition FinalizerKeyV2 : string := "networking.gke.io/ingress-finalizer-V2".
(** [LegacyILBFinalizer]: ILB services managed by the service controller. *)
Definition LegacyILBFinalizer : string := "gke.networking.io/l4-ilb-v1".
(** [ILBFinalizerV2]: newer Internal LoadBalancer controllers. *)
Definition ILBFinalizerV2 : string := "gke.networking.io/l4-ilb-v2".
(** [NegFinalizerKey]: used by the neg controller. *)
Definition NegFinalizerKey : string := "networking.gke.io/neg-finalizer".

(** [HasGivenFinalizer] is true if the passed in meta has the specified finalizer. *)
Definition HasGivenFinalizer (m : meta_v1.ObjectMeta) (key : string) : bool :=
  slice.ContainsString (meta_v1.Finalizers m) key None.

(** [HasFinalizer] is true if the passed in meta has an ingress finalizer. *)
Definition HasFinalizer (m : meta_v1.ObjectMeta) : bool :=
  HasGivenFinalizer m FinalizerKey || HasGivenFinalizer m FinalizerKeyV2.

(** [IsDeletionCandidateForGivenFinalizer] is true if the passed in meta
    contains the specified finalizer. *)
Definition IsDeletionCandidateForGivenFinalizer (m : meta_v1.ObjectMeta) (key : string) : bool :=
  not_nil (meta_v1.DeletionTimestamp m) && HasGivenFinalizer m key.

(** [IsDeletionCandidate] is true if the passed in meta contains an ingress finalizer. *)
Definition IsDeletionCandidate (m : meta_v1.ObjectMeta) : bool :=
  IsDeletionCandidateForGivenFinalizer m FinalizerKey
  || IsDeletionCandidateForGivenFinalizer m FinalizerKeyV2.

(** [needToAddFinalizer] is true if the passed in meta does not contain the
    specified finalizer. *)
Definition needToAddFinalizer (m : meta_v1.ObjectMeta) (key : string) : bool :=
  negb (not_nil (meta_v1.DeletionTimestamp m)) && negb (HasGivenFinalizer m key).

Section Mutation.

Context {Cluster : Type} `{!Encoders}.
Local Open Scope go_scope.

(** *** Heap accesses *)

(** [*p] for [p : *v1beta1.Ingress]; panics on [nil]. *)
Definition load_Ingress (p : ptr) : M Cluster v1beta1.Ingress :=
  λ w, match p with
       | Some l => (λ i, (i, w)) <$> ingresses w !! l
       | None => None
       end.

(** [*p = i] *)
Definition store_Ingress (p : ptr) (i : v1beta1.Ingress) : M Cluster unit :=
  λ w, match p with
       | Some l =>
           match ingresses w !! l with
           | Some _ => Some (tt, set_ingresses (<[l:=i]> (ingresses w)) w)
           | None => None
           end
       | None => None
       end.

(** A new object on the heap. *)
Definition new_Ingress (i : v1beta1.Ingress) : M Cluster ptr :=
  λ w, let l := fresh (dom (ingresses w)) in
       Some (Some l, set_ingresses (<[l:=i]> (ingresses w)) w).

Definition load_Service (p : ptr) : M Cluster corev1.Service :=
  λ w, match p with
       | Some l => (λ s, (s, w)) <$> services w !! l
       | None => None
       end.

Definition store_Service (p : ptr) (s : corev1.Service) : M Cluster unit :=
  λ w, match p with
       | Some l =>
           match services w !! l with
           | Some _ => Some (tt, set_services (<[l:=s]> (services w)) w)
           | None => None
           end
       | None => None
       end.

Definition new_Service (s : corev1.Service) : M Cluster ptr :=
  λ w, let l := fresh (dom (services w)) in
       Some (Some l, set_services (<[l:=s]> (services w)) w).

Definition load_ObjectMeta (p : ptr) : M Cluster meta_v1.ObjectMeta :=
  λ w, match p with
       | Some l => (λ m, (m, w)) <$> metas w !! l
       | None => None
       end.

Definition store_ObjectMeta (p : ptr) (m : meta_v1.ObjectMeta) : M Cluster unit :=
  λ w, match p with
       | Some l =>
           match metas w !! l with
           | Some _ => Some (tt, set_metas (<[l:=m]> (metas w)) w)
           | None => None
           end
       | None => None
       end.

Definition new_ObjectMeta (m : meta_v1.ObjectMeta) : M Cluster ptr :=
  λ w, let l := fresh (dom (metas w)) in
       Some (Some l, set_metas (<[l:=m]> (metas w)) w).

(** *** The generated deep copies: [nil] for [nil], else a new object with
    the same contents (the finalizer slice is copied with [make] and [copy],
    so it has the same elements). *)
Definition Ingress_DeepCopy (p : ptr) : M Cluster ptr :=
  match p with
  | None => ret None
  | Some _ => i <- load_Ingress p ;; new_Ingress i
  end.

Definition Service_DeepCopy (p : ptr) : M Cluster ptr :=
  match p with
  | None => ret None
  | Some _ => s <- load_Service p ;; new_Service s
  end.

(** [m.DeepCopy()] on a struct value [m]: never [nil]. *)
Definition ObjectMeta_DeepCopy (m : meta_v1.ObjectMeta) : M Cluster ptr :=
  new_ObjectMeta m.

(** *** Calls of the clients' [Patch]: logged, run against the store, and
    the object in the answer, if any, is a new heap object. *)
Definition IngressInterface_Patch (ic : IngressInterface Cluster) (name : string)
    (pt : types.PatchType) (data : Bytes) (opts : meta_v1.PatchOptions)
    (subresources : list string) : M Cluster (ptr * error) :=
  λ w, let r := Ingress_Patch ic name pt data opts subresources (cluster w) in
       let w1 := sent (mkPatchRequest Schema_Ingress name pt data subresources) r.2 w in
       match r.1.1 with
       | Some i => (p <- new_Ingress i ;; ret (p, r.1.2)) w1
       | None => Some ((None, r.1.2), w1)
       end.

Definition ServiceInterface_Patch (sc : ServiceInterface Cluster) (name : string)
    (pt : types.PatchType) (data : Bytes) (opts : meta_v1.PatchOptions)
    (subresources : list string) : M Cluster (ptr * error) :=
  λ w, let r := Service_Patch sc name pt data opts subresources (cluster w) in
       let w1 := sent (mkPatchRequest Schema_Service name pt data subresources) r.2 w in
       match r.1.1 with
       | Some s => (p <- new_Service s ;; ret (p, r.1.2)) w1
       | None => Some ((None, r.1.2), w1)
       end.

(** Modelled from the spec: [PatchIngressObjectMetadata], the helper of
    package [common] that [finalizer.go] calls and that is written in another
    file of the package.  Following the spec's Patch Layer, it diffs the
    original against the original carrying the new metadata: both snapshots
    are serialized, the two-way merge patch is computed, and the patch is
    submitted to the store scoped to the metadata; an encoder's error ends
    the call before anything is sent, and the store's error is passed on as
    it is. *)
Definition PatchIngressObjectMetadata (ic : IngressInterface Cluster) (ing : ptr)
    (newObjectMetadata : meta_v1.ObjectMeta) : M Cluster (ptr * error) :=
  old <- load_Ingress ing ;;
  let newIng := v1beta1.set_ObjectMeta newObjectMetadata old in
  let oldData := json_Marshal_Ingress old in
  match oldData.2 with
  | Some err => ret (None, Some err)
  | None =>
      let newData := json_Marshal_Ingress newIng in
      match newData.2 with
      | Some err => ret (None, Some err)
      | None =>
          let patchBytes := CreateTwoWayMergePatch oldData.1 newData.1 Schema_Ingress in
          match patchBytes.2 with
          | Some err => ret (None, Some err)
          | None =>
              IngressInterface_Patch ic (meta_v1.Name (v1beta1.ObjectMeta old))
                types.StrategicMergePatchType patchBytes.1 meta_v1.PatchOptions_zero []
          end
      end
  end.

(** [fmt.Errorf("error patching Ingress %s/%s: %v", namespace, name, err)] *)
Definition error_patching_Ingress (namespace name err : string) : string :=
  "error patching Ingress " +:+ namespace +:+ "/" +:+ name +:+ ": " +:+ err.

(** [x.ObjectMeta.Finalizers = fs] *)
Definition Ingress_set_Finalizers (fs : list string) (i : v1beta1.Ingress) : v1beta1.Ingress :=
  v1beta1.set_ObjectMeta (meta_v1.set_Finalizers fs (v1beta1.ObjectMeta i)) i.

Definition Service_set_Finalizers (fs : list string) (s : corev1.Service) : corev1.Service :=
  corev1.set_ObjectMeta (meta_v1.set_Finalizers fs (corev1.ObjectMeta s)) s.

(** [EnsureFinalizer] ensures that the specified finalizer exists on given
    Ingress.  ([klog] lines have no effect here and are left out.) *)
Definition EnsureFinalizer (ing : ptr) (ingClient : IngressInterface Cluster)
    (finalizerKey : string) : M Cluster (ptr * error) :=
  updated <- Ingress_DeepCopy ing ;;
  i <- load_Ingress ing ;;
  if needToAddFinalizer (v1beta1.ObjectMeta i) finalizerKey then
    u <- load_Ingress updated ;;
    store_Ingress updated
      (Ingress_set_Finalizers
         (append (meta_v1.Finalizers (v1beta1.ObjectMeta u)) finalizerKey) u) ;;
    u <- load_Ingress updated ;;
    r <- PatchIngressObjectMetadata ingClient ing (v1beta1.ObjectMeta u) ;;
    match r.2 with
    | Some err =>
        i <- load_Ingress ing ;;
        ret (None, Some (error_patching_Ingress
                           (meta_v1.Namespace (v1beta1.ObjectMeta i))
                           (meta_v1.Name (v1beta1.ObjectMeta i)) err))
    | None => ret (updated, None)
    end
  else ret (updated, None).

(** [EnsureDeleteFinalizer] ensures that the specified finalizer is deleted
    from given Ingress. *)
Definition EnsureDeleteFinalizer (ing : ptr) (ingClient : IngressInterface Cluster)
    (finalizerKey : string) : M Cluster error :=
  i <- load_Ingress ing ;;
  if HasGivenFinalizer (v1beta1.ObjectMeta i) finalizerKey then
    updatedObjectMeta <- ObjectMeta_DeepCopy (v1beta1.ObjectMeta i) ;;
    m <- load_ObjectMeta updatedObjectMeta ;;
    store_ObjectMeta updatedObjectMeta
      (meta_v1.set_Finalizers
         (slice.RemoveString (meta_v1.Finalizers m) finalizerKey None) m) ;;
    m <- load_ObjectMeta updatedObjectMeta ;;
    r <- PatchIngressObjectMetadata ingClient ing m ;;
    match r.2 with
    | Some err =>
        i <- load_Ingress ing ;;
        ret (Some (error_patching_Ingress
                     (meta_v1.Namespace (v1beta1.ObjectMeta i))
                     (meta_v1.Name (v1beta1.ObjectMeta i)) err))
    | None => ret None
    end
  else ret None.

(** [fmt.Sprintf("%s/%s", namespace, name)] *)
Definition svcKey_of (namespace name : string) : string :=
  namespace +:+ "/" +:+ name.

(** [patchServiceFinalizer] encodes both services, computes the patch and
    sends it; each of the three encoder errors ends the call before the
    store is reached.  ([context.TODO()] carries nothing and is left out;
    [newSvc] is read where Go hands it to the encoder.) *)
Definition patchServiceFinalizer (sc : ServiceInterface Cluster) (oldSvc newSvc : ptr) :
    M Cluster error :=
  o <- load_Service oldSvc ;;
  let svcKey := svcKey_of (meta_v1.Namespace (corev1.ObjectMeta o))
                          (meta_v1.Name (corev1.ObjectMeta o)) in
  let oldData := json_Marshal_Service o in
  match oldData.2 with
  | Some err =>
      ret (Some ("failed to Marshal oldData for service " +:+ svcKey +:+ ": " +:+ err))
  | None =>
      n <- load_Service newSvc ;;
      let newData := json_Marshal_Service n in
      match newData.2 with
      | Some err =>
          ret (Some ("failed to Marshal newData for service " +:+ svcKey +:+ ": " +:+ err))
      | None =>
          let patchBytes := CreateTwoWayMergePatch oldData.1 newData.1 Schema_Service in
          match patchBytes.2 with
          | Some err =>
              ret (Some ("failed to create TwoWayMergePatch for service "
                         +:+ svcKey +:+ ": " +:+ err))
          | None =>
              o <- load_Service oldSvc ;;
              r <- ServiceInterface_Patch sc (meta_v1.Name (corev1.ObjectMeta o))
                     types.StrategicMergePatchType patchBytes.1
                     meta_v1.PatchOptions_zero ["status"] ;;
              ret r.2
          end
      end
  end.

(** [EnsureServiceFinalizer] patches the service to add finalizer. *)
Definition EnsureServiceFinalizer (service : ptr) (key : string)
    (kubeClient : kubernetes_Interface Cluster) : M Cluster error :=
  s <- load_Service service ;;
  if HasGivenFinalizer (corev1.ObjectMeta s) key then ret None
  else
    (* Make a copy so we don't mutate the shared informer cache. *)
    updated <- Service_DeepCopy service ;;
    u <- load_Service updated ;;
    store_Service updated
      (Service_set_Finalizers (append (meta_v1.Finalizers (corev1.ObjectMeta u)) key) u) ;;
    u <- load_Service updated ;;
    patchServiceFinalizer
      (Services (CoreV1 kubeClient) (meta_v1.Namespace (corev1.ObjectMeta u)))
      service updated.

(** [EnsureDeleteServiceFinalizer] patches the service to remove finalizer. *)
Definition EnsureDeleteServiceFinalizer (service : ptr) (key : string)
    (kubeClient : kubernetes_Interface Cluster) : M Cluster error :=
  s <- load_Service service ;;
  if negb (HasGivenFinalizer (corev1.ObjectMeta s) key) then ret None
  else
    (* Make a copy so we don't mutate the shared informer cache. *)
    updated <- Service_DeepCopy service ;;
    u <- load_Service updated ;;
    store_Service updated
      (Service_set_Finalizers
         (slice.RemoveString (meta_v1.Finalizers (corev1.ObjectMeta u)) key None) u) ;;
    u <- load_Service updated ;;
    patchServiceFinalizer
      (Services (CoreV1 kubeClient) (meta_v1.Namespace (corev1.ObjectMeta u)))
      service updated.

End Mutation.

(** ** Vocabulary of the statements *)

Section Vocabulary.

Context {Cluster : Type} `{!Encoders}.
Implicit Types (w : World Cluster).

(** The heap of [w'] contains the heap of [w]: every object of [w] is
    still there, unchanged. *)
Definition heap_extends w w' : Prop :=
  ingresses w ⊆ ingresses w' ∧ services w ⊆ services w' ∧ metas w ⊆ metas w'.

(** What [PatchIngressObjectMetadata] computes before it calls the store:
    the two-way merge patch between two snapshots of an Ingress, or the
    error of the first encoder that fails. *)
Definition Ingress_diff (old new : v1beta1.Ingress) : Bytes * error :=
  let oldData := json_Marshal_Ingress old in
  match oldData.2 with
  | Some err => (oldData.1, Some err)
  | None =>
      let newData := json_Marshal_Ingress new in
      match newData.2 with
      | Some err => (newData.1, Some err)
      | None => CreateTwoWayMergePatch oldData.1 newData.1 Schema_Ingress
      end
  end.

(** What [patchServiceFinalizer] computes before it calls the store: the
    patch bytes, or the error it returns for the first encoder that fails. *)
Definition Service_diff (old new : corev1.Service) : Bytes * error :=
  let svcKey := svcKey_of (meta_v1.Namespace (corev1.ObjectMeta old))
                          (meta_v1.Name (corev1.ObjectMeta old)) in
  let oldData := json_Marshal_Service old in
  match oldData.2 with
  | Some err =>
      (oldData.1, Some ("failed to Marshal oldData for service " +:+ svcKey +:+ ": " +:+ err))
  | None =>
      let newData := json_Marshal_Service new in
      match newData.2 with
      | Some err =>
          (newData.1,
           Some ("failed to Marshal newData for service " +:+ svcKey +:+ ": " +:+ err))
      | None =>
          let patchBytes := CreateTwoWayMergePatch oldData.1 newData.1 Schema_Service in
          match patchBytes.2 with
          | Some err =>
              (patchBytes.1,
               Some ("failed to create TwoWayMergePatch for service "
                     +:+ svcKey +:+ ": " +:+ err))
          | None => patchBytes
          end
      end
  end.

(** The request [patchServiceFinalizer] sends for the service [old]. *)
Definition Service_request (old : corev1.Service) (data : Bytes) : PatchRequest :=
  mkPatchRequest Schema_Service (meta_v1.Name (corev1.ObjectMeta old))
    types.StrategicMergePatchType data ["status"].

(** The request [PatchIngressObjectMetadata] sends for the Ingress [old]. *)
Definition Ingress_request (old : v1beta1.Ingress) (data : Bytes) : PatchRequest :=
  mkPatchRequest Schema_Ingress (meta_v1.Name (v1beta1.ObjectMeta old))
    types.StrategicMergePatchType data [].

End Vocabulary.

(** Two finalizer lists with the same elements, whatever the order. *)
Definition same_set (l1 l2 : list string) : Prop := ∀ x, x ∈ l1 ↔ x ∈ l2.

(** ** A small concrete cluster, in the manner of client-go's fake clientset

    The store is the list of the names it holds; [Patch] answers "not found"
    for any other name.  The encoders print the identity and the finalizers
    of an object and refuse an object whose spec is ["unencodable"]. *)
Module Fake.

Definition Cluster : Type := list string.

Definition print_meta (m : meta_v1.ObjectMeta) : string :=
  meta_v1.Namespace m +:+ "/" +:+ meta_v1.Name m +:+ " finalizers:"
  +:+ foldr (λ f acc, " " +:+ f +:+ acc) "" (meta_v1.Finalizers m).

Definition marshal (spec : string) (m : meta_v1.ObjectMeta) : Bytes * error :=
  if bool_decide (spec = "unencodable")
  then ("", Some "json: unsupported value")
  else (print_meta m, None).

Definition encoders : Encoders := {|
  json_Marshal_Ingress i := marshal (v1beta1.Spec i) (v1beta1.ObjectMeta i);
  json_Marshal_Service s := marshal (corev1.Spec s) (corev1.ObjectMeta s);
  CreateTwoWayMergePatch od nd _ := (od +:+ " => " +:+ nd, None)
|}.

(** The same encoders, except that no patch can be computed. *)
Definition diffless_encoders : Encoders := {|
  json_Marshal_Ingress i := marshal (v1beta1.Spec i) (v1beta1.ObjectMeta i);
  json_Marshal_Service s := marshal (corev1.Spec s) (corev1.ObjectMeta s);
  CreateTwoWayMergePatch _ _ _ := ("", Some "unable to find api field in struct")
|}.

Definition patch {A : Type} (kind name : string) (c : Cluster) :
    (option A * error) * Cluster :=
  if bool_decide (name ∈ c) then ((None, None), c)
  else ((None, Some (kind +:+ " " +:+ name +:+ " not found")), c).

Definition ingClient : IngressInterface Cluster :=
  mkIngressInterface (λ name _ _ _ _ c, patch "ingresses" name c).

Definition kubeClient : kubernetes_Interface Cluster :=
  mkKubernetesInterface
    (mkCoreV1Interface (λ _, mkServiceInterface (λ name _ _ _ _ c, patch "services" name c))).

Definition meta (name : string) (dt : option meta_v1.Time) (fs : list string) :
    meta_v1.ObjectMeta :=
  meta_v1.mkObjectMeta name "default" dt fs.

(** A world with one Ingress at location 1 and one Service at location 1;
    the store knows the names ["web"] and ["db"]. *)
Definition world (i : v1beta1.Ingress) (s : corev1.Service) : World Cluster :=
  mkWorld {[ 1%positive := i ]} {[ 1%positive := s ]} ∅ ["web"; "db"] [].

Definition ingress (dt : option meta_v1.Time) (fs : list string) : v1beta1.Ingress :=
  v1beta1.mkIngress (meta "web" dt fs) "rules" "".

Definition service (dt : option meta_v1.Time) (fs : list string) : corev1.Service :=
  corev1.mkService (meta "db" dt fs) "ports" "".

End Fake.

(** * Proofs *)

(** A decidable proposition that holds by evaluation. *)
Ltac by_computation := apply (bool_decide_unpack _); vm_compute; exact I.

(** ** Heap and slice facts *)

Section Heap.
Context {V : Type}.
Implicit Types (h : gmap loc V).

Lemma fresh_loc_None h : h !! fresh (dom h) = None.
Proof. apply not_elem_of_dom, is_fresh. Qed.

Lemma fresh_loc_ne h l v : h !! l = Some v → l ≠ fresh (dom h).
Proof. intros Hl ->. rewrite fresh_loc_None in Hl. discriminate. Qed.

Lemma alloc_subseteq h v : h ⊆ <[fresh (dom h) := v]> h.
Proof. apply insert_subseteq, fresh_loc_None. Qed.

End Heap.

Section PredicateFacts.
Lemma ContainsString_nil_modifier (l : list string) (s : string) :
  slice.ContainsString l s None = bool_decide (s ∈ l).
Proof.
  induction l as [|item rest IH]; simpl.
  - done.
  - destruct (bool_decide_reflect (item = s)) as [->|Hne].
    + symmetry. apply bool_decide_eq_true_2. left.
    + rewrite IH. apply bool_decide_ext. rewrite elem_of_cons.
      split; [by right | intros [?|?]; [congruence | done]].
Qed.

Lemma RemoveString_loop_filter (acc l : list string) (s : string) :
  slice.RemoveString_loop acc l s None = acc ++ filter (λ x, x ≠ s) l.
Proof.
  revert acc. induction l as [|item rest IH]; intros acc; simpl.
  - by rewrite app_nil_r.
  - destruct (bool_decide_reflect (item = s)) as [->|Hne].
    + rewrite IH. by rewrite filter_cons_False by naive_solver.
    + rewrite IH. unfold append. rewrite filter_cons_True by done.
      by rewrite <- app_assoc.
Qed.

Lemma RemoveString_filter (l : list string) (s : string) :
  slice.RemoveString l s None = filter (λ x, x ≠ s) l.
Proof. unfold slice.RemoveString. by rewrite RemoveString_loop_filter. Qed.
End PredicateFacts.

Section PatchLayer.
Context {Cluster : Type} `{!Encoders}.
Implicit Types (w : World Cluster).

Lemma heap_extends_refl w : heap_extends w w.
Proof. by repeat split. Qed.

Lemma heap_extends_trans w1 w2 w3 :
  heap_extends w1 w2 → heap_extends w2 w3 → heap_extends w1 w3.
Proof.
  intros (?&?&?) (?&?&?). repeat split; by etrans.
Qed.

Lemma IngressInterface_Patch_run ic name pt data opts subs w :
  let a := Ingress_Patch ic name pt data opts subs (cluster w) in
  ∃ p w', IngressInterface_Patch ic name pt data opts subs w = Some ((p, a.1.2), w')
    ∧ heap_extends w w'
    ∧ cluster w' = a.2
    ∧ requests w' = requests w ++ [mkPatchRequest Schema_Ingress name pt data subs].
Proof.
  intros a. unfold IngressInterface_Patch. fold a.
  destruct a as [[[i|] e] c]; simpl.
  - eexists _, _. split; [reflexivity|]. simpl. repeat split; try done.
    apply alloc_subseteq.
  - eexists _, _. split; [reflexivity|]. simpl. repeat split; done.
Qed.

Lemma PatchIngressObjectMetadata_run ic l old m w :
  ingresses w !! l = Some old →
  let d := Ingress_diff old (v1beta1.set_ObjectMeta m old) in
  let name := meta_v1.Name (v1beta1.ObjectMeta old) in
  ∃ r w', PatchIngressObjectMetadata ic (Some l) m w = Some (r, w')
    ∧ heap_extends w w'
    ∧ match d.2 with
      | Some err => r = (None, Some err) ∧ w' = w
      | None =>
          let a := Ingress_Patch ic name types.StrategicMergePatchType d.1
                     meta_v1.PatchOptions_zero [] (cluster w) in
          r.2 = a.1.2 ∧ cluster w' = a.2 ∧
          requests w' = requests w ++ [Ingress_request old d.1]
      end.
Proof.
  intros Hl d name. subst d. unfold PatchIngressObjectMetadata, Ingress_diff, bind, load_Ingress.
  rewrite Hl. simpl.
  destruct (json_Marshal_Ingress old) as [od [e|]]; simpl.
  { eexists _, _. split; [reflexivity|]. split; [apply heap_extends_refl|done]. }
  destruct (json_Marshal_Ingress _) as [nd [e|]]; simpl.
  { eexists _, _. split; [reflexivity|]. split; [apply heap_extends_refl|done]. }
  destruct (CreateTwoWayMergePatch od nd Schema_Ingress) as [pb [e|]]; simpl.
  { eexists _, _. split; [reflexivity|]. split; [apply heap_extends_refl|done]. }
  destruct (IngressInterface_Patch_run ic name types.StrategicMergePatchType pb
              meta_v1.PatchOptions_zero [] w) as (p & w' & Hrun & Hext & Hc & Hr).
  eexists _, _. split; [exact Hrun|]. split; [done|]. simpl. done.
Qed.
End PatchLayer.

Section Runs.
Context {Cluster : Type} `{!Encoders}.
Implicit Types (w : World Cluster).

Lemma ServiceInterface_Patch_run sc name pt data opts subs w :
  let a := Service_Patch sc name pt data opts subs (cluster w) in
  ∃ p w', ServiceInterface_Patch sc name pt data opts subs w = Some ((p, a.1.2), w')
    ∧ heap_extends w w'
    ∧ cluster w' = a.2
    ∧ requests w' = requests w ++ [mkPatchRequest Schema_Service name pt data subs].
Proof.
  intros a. unfold ServiceInterface_Patch. fold a.
  destruct a as [[[i|] e] c]; simpl.
  - eexists _, _. split; [reflexivity|]. simpl. repeat split; try done.
    apply alloc_subseteq.
  - eexists _, _. split; [reflexivity|]. simpl. repeat split; done.
Qed.

Lemma patchServiceFinalizer_run sc lo ln o n w :
  services w !! lo = Some o →
  services w !! ln = Some n →
  let d := Service_diff o n in
  let name := meta_v1.Name (corev1.ObjectMeta o) in
  ∃ r w', patchServiceFinalizer sc (Some lo) (Some ln) w = Some (r, w')
    ∧ heap_extends w w'
    ∧ match d.2 with
      | Some err => r = Some err ∧ w' = w
      | None =>
          let a := Service_Patch sc name types.StrategicMergePatchType d.1
                     meta_v1.PatchOptions_zero ["status"] (cluster w) in
          r = a.1.2 ∧ cluster w' = a.2 ∧
          requests w' = requests w ++ [Service_request o d.1]
      end.
Proof.
  intros Ho Hn d name. subst d.
  unfold patchServiceFinalizer, Service_diff, bind, load_Service.
  rewrite Ho. simpl.
  destruct (json_Marshal_Service o) as [od [e|]]; simpl.
  { eexists _, _. split; [reflexivity|]. split; [apply heap_extends_refl|done]. }
  rewrite Hn. simpl.
  destruct (json_Marshal_Service n) as [nd [e|]]; simpl.
  { eexists _, _. split; [reflexivity|]. split; [apply heap_extends_refl|done]. }
  destruct (CreateTwoWayMergePatch od nd Schema_Service) as [pb [e|]]; simpl.
  { eexists _, _. split; [reflexivity|]. split; [apply heap_extends_refl|done]. }
  rewrite Ho. simpl.
  destruct (ServiceInterface_Patch_run sc name types.StrategicMergePatchType pb
              meta_v1.PatchOptions_zero ["status"] w) as (p & w' & Hrun & Hext & Hc & Hr).
  fold name. rewrite Hrun. simpl.
  eexists _, _. split; [reflexivity|]. split; [done|]. done.
Qed.

(** *** [EnsureFinalizer] *)

Lemma EnsureFinalizer_noop_run ic l i key w :
  ingresses w !! l = Some i →
  needToAddFinalizer (v1beta1.ObjectMeta i) key = false →
  EnsureFinalizer (Some l) ic key w
  = Some ((Some (fresh (dom (ingresses w))), None),
          set_ingresses (<[fresh (dom (ingresses w)) := i]> (ingresses w)) w).
Proof.
  intros Hl Hneed.
  unfold EnsureFinalizer, Ingress_DeepCopy, bind, load_Ingress, new_Ingress, ret.
  rewrite Hl. simpl.
  rewrite lookup_insert_ne by (symmetry; by eapply fresh_loc_ne).
  rewrite Hl. simpl. by rewrite Hneed.
Qed.

Lemma EnsureFinalizer_add_run ic l i key w :
  ingresses w !! l = Some i →
  needToAddFinalizer (v1beta1.ObjectMeta i) key = true →
  let u := fresh (dom (ingresses w)) in
  let i' := Ingress_set_Finalizers
              (append (meta_v1.Finalizers (v1beta1.ObjectMeta i)) key) i in
  let w1 := set_ingresses (<[u := i']> (ingresses w)) w in
  EnsureFinalizer (Some l) ic key w
  = match PatchIngressObjectMetadata ic (Some l) (v1beta1.ObjectMeta i') w1 with
    | Some (r, w') =>
        match r.2 with
        | Some err =>
            Some ((None,
                   Some (error_patching_Ingress
                           (meta_v1.Namespace (v1beta1.ObjectMeta i))
                           (meta_v1.Name (v1beta1.ObjectMeta i)) err)), w')
        | None => Some ((Some u, None), w')
        end
    | None => None
    end.
Proof.
  intros Hl Hneed u i' w1.
  assert (Hne : u ≠ l) by (symmetry; by eapply fresh_loc_ne).
  assert (Hl1 : ingresses w1 !! l = Some i).
  { subst w1. simpl. by rewrite lookup_insert_ne. }
  destruct (PatchIngressObjectMetadata_run ic l i (v1beta1.ObjectMeta i') w1 Hl1)
    as (r & w' & Hrun & (Hext & _) & _).
  rewrite Hrun.
  unfold EnsureFinalizer, Ingress_DeepCopy, bind, load_Ingress, new_Ingress,
    store_Ingress, ret.
  rewrite Hl. simpl. fold u.
  rewrite lookup_insert_ne by done. rewrite Hl. simpl. rewrite Hneed.
  simpl. rewrite lookup_insert_eq. simpl. rewrite lookup_insert_eq. simpl.
  rewrite lookup_insert_eq. simpl.
  rewrite insert_insert_eq. fold i'.
  change (set_ingresses _ (set_ingresses _ w)) with w1.
  change (meta_v1.set_Finalizers _ _) with (v1beta1.ObjectMeta i').
  rewrite Hrun.
  destruct r as [p [err|]]; simpl; [|done].
  by rewrite (lookup_weaken _ _ _ _ Hl1 Hext).
Qed.

(** *** [EnsureDeleteFinalizer] *)

Lemma EnsureDeleteFinalizer_noop_run ic l i key w :
  ingresses w !! l = Some i →
  HasGivenFinalizer (v1beta1.ObjectMeta i) key = false →
  EnsureDeleteFinalizer (Some l) ic key w = Some (None, w).
Proof.
  intros Hl Hhas. unfold EnsureDeleteFinalizer, bind, load_Ingress, ret.
  rewrite Hl. simpl. by rewrite Hhas.
Qed.

Lemma EnsureDeleteFinalizer_remove_run ic l i key w :
  ingresses w !! l = Some i →
  HasGivenFinalizer (v1beta1.ObjectMeta i) key = true →
  let mp := fresh (dom (metas w)) in
  let m' := meta_v1.set_Finalizers
              (slice.RemoveString (meta_v1.Finalizers (v1beta1.ObjectMeta i)) key None)
              (v1beta1.ObjectMeta i) in
  let w1 := set_metas (<[mp := m']> (metas w)) w in
  EnsureDeleteFinalizer (Some l) ic key w
  = match PatchIngressObjectMetadata ic (Some l) m' w1 with
    | Some (r, w') =>
        match r.2 with
        | Some err =>
            Some (Some (error_patching_Ingress
                          (meta_v1.Namespace (v1beta1.ObjectMeta i))
                          (meta_v1.Name (v1beta1.ObjectMeta i)) err), w')
        | None => Some (None, w')
        end
    | None => None
    end.
Proof.
  intros Hl Hhas mp m' w1.
  assert (Hl1 : ingresses w1 !! l = Some i) by done.
  destruct (PatchIngressObjectMetadata_run ic l i m' w1 Hl1)
    as (r & w' & Hrun & (Hext & _) & _).
  rewrite Hrun.
  unfold EnsureDeleteFinalizer, ObjectMeta_DeepCopy, bind, load_Ingress,
    load_ObjectMeta, new_ObjectMeta, store_ObjectMeta, ret.
  rewrite Hl. simpl. rewrite Hhas. fold mp.
  simpl. rewrite lookup_insert_eq. simpl. rewrite lookup_insert_eq. simpl.
  rewrite lookup_insert_eq. simpl.
  rewrite insert_insert_eq. fold m'.
  change (set_metas _ (set_metas _ w)) with w1.
  rewrite Hrun.
  destruct r as [p [err|]]; simpl; [|done].
  by rewrite (lookup_weaken _ _ _ _ Hl1 Hext).
Qed.

(** *** [EnsureServiceFinalizer] and [EnsureDeleteServiceFinalizer] *)

Lemma EnsureServiceFinalizer_noop_run kc l s key w :
  services w !! l = Some s →
  HasGivenFinalizer (corev1.ObjectMeta s) key = true →
  EnsureServiceFinalizer (Some l) key kc w = Some (None, w).
Proof.
  intros Hl Hhas. unfold EnsureServiceFinalizer, bind, load_Service, ret.
  rewrite Hl. simpl. by rewrite Hhas.
Qed.

Lemma EnsureServiceFinalizer_add_run kc l s key w :
  services w !! l = Some s →
  HasGivenFinalizer (corev1.ObjectMeta s) key = false →
  let u := fresh (dom (services w)) in
  let s' := Service_set_Finalizers
              (append (meta_v1.Finalizers (corev1.ObjectMeta s)) key) s in
  let w1 := set_services (<[u := s']> (services w)) w in
  EnsureServiceFinalizer (Some l) key kc w
  = patchServiceFinalizer
      (Services (CoreV1 kc) (meta_v1.Namespace (corev1.ObjectMeta s)))
      (Some l) (Some u) w1.
Proof.
  intros Hl Hhas u s' w1.
  assert (Hne : u ≠ l) by (symmetry; by eapply fresh_loc_ne).
  unfold EnsureServiceFinalizer, Service_DeepCopy, bind, load_Service, new_Service,
    store_Service, ret.
  rewrite Hl. simpl. rewrite Hhas. rewrite Hl. simpl. fold u.
  rewrite lookup_insert_eq. simpl. rewrite lookup_insert_eq. simpl.
  rewrite lookup_insert_eq. simpl.
  rewrite insert_insert_eq. fold s'. done.
Qed.

Lemma EnsureDeleteServiceFinalizer_noop_run kc l s key w :
  services w !! l = Some s →
  HasGivenFinalizer (corev1.ObjectMeta s) key = false →
  EnsureDeleteServiceFinalizer (Some l) key kc w = Some (None, w).
Proof.
  intros Hl Hhas. unfold EnsureDeleteServiceFinalizer, bind, load_Service, ret.
  rewrite Hl. simpl. by rewrite Hhas.
Qed.

Lemma EnsureDeleteServiceFinalizer_remove_run kc l s key w :
  services w !! l = Some s →
  HasGivenFinalizer (corev1.ObjectMeta s) key = true →
  let u := fresh (dom (services w)) in
  let s' := Service_set_Finalizers
              (slice.RemoveString (meta_v1.Finalizers (corev1.ObjectMeta s)) key None) s in
  let w1 := set_services (<[u := s']> (services w)) w in
  EnsureDeleteServiceFinalizer (Some l) key kc w
  = patchServiceFinalizer
      (Services (CoreV1 kc) (meta_v1.Namespace (corev1.ObjectMeta s)))
      (Some l) (Some u) w1.
Proof.
  intros Hl Hhas u s' w1.
  assert (Hne : u ≠ l) by (symmetry; by eapply fresh_loc_ne).
  unfold EnsureDeleteServiceFinalizer, Service_DeepCopy, bind, load_Service,
    new_Service, store_Service, ret.
  rewrite Hl. simpl. rewrite Hhas. simpl. rewrite Hl. simpl. fold u.
  rewrite lookup_insert_eq. simpl. rewrite lookup_insert_eq. simpl.
  rewrite lookup_insert_eq. simpl.
  rewrite insert_insert_eq. fold s'. done.
Qed.
End Runs.

(** ** The predicates in terms of list membership *)

Section PredicateLayer.
Implicit Types (m : meta_v1.ObjectMeta) (key : string).

Lemma HasGivenFinalizer_decide m key :
  HasGivenFinalizer m key = bool_decide (key ∈ meta_v1.Finalizers m).
Proof. apply ContainsString_nil_modifier. Qed.

Lemma HasGivenFinalizer_true m key :
  HasGivenFinalizer m key = true ↔ key ∈ meta_v1.Finalizers m.
Proof. rewrite HasGivenFinalizer_decide. apply bool_decide_eq_true. Qed.

Lemma HasGivenFinalizer_false m key :
  HasGivenFinalizer m key = false ↔ key ∉ meta_v1.Finalizers m.
Proof. rewrite HasGivenFinalizer_decide. apply bool_decide_eq_false. Qed.

Lemma needToAddFinalizer_true m key :
  needToAddFinalizer m key = true
  ↔ meta_v1.DeletionTimestamp m = None ∧ key ∉ meta_v1.Finalizers m.
Proof.
  unfold needToAddFinalizer. rewrite andb_true_iff, !negb_true_iff.
  rewrite HasGivenFinalizer_false.
  destruct (meta_v1.DeletionTimestamp m); simpl; intuition congruence.
Qed.

Lemma needToAddFinalizer_false m key :
  needToAddFinalizer m key = false
  ↔ ¬ (meta_v1.DeletionTimestamp m = None ∧ key ∉ meta_v1.Finalizers m).
Proof. rewrite <- needToAddFinalizer_true. by destruct (needToAddFinalizer m key). Qed.

Lemma HasGivenFinalizer_append m key :
  HasGivenFinalizer (meta_v1.set_Finalizers (append (meta_v1.Finalizers m) key) m) key = true.
Proof.
  apply HasGivenFinalizer_true. simpl. unfold append.
  apply elem_of_app. right. apply list_elem_of_singleton. done.
Qed.

Lemma RemoveString_not_elem (l : list string) key :
  key ∉ l → slice.RemoveString l key None = l.
Proof.
  intros Hnot. rewrite RemoveString_filter.
  induction l as [|x l IH]; [done|].
  apply not_elem_of_cons in Hnot as [Hne Hnot].
  rewrite filter_cons_True by done. by rewrite IH.
Qed.

Lemma RemoveString_append_new (l : list string) key :
  key ∉ l → slice.RemoveString (append l key) key None = l.
Proof.
  intros Hnot. rewrite RemoveString_filter. unfold append.
  rewrite filter_app, filter_cons_False, filter_nil, app_nil_r by (intros ?; done).
  rewrite <- RemoveString_filter. by apply RemoveString_not_elem.
Qed.

Lemma RemoveString_removes (l : list string) key :
  key ∉ slice.RemoveString l key None.
Proof. rewrite RemoveString_filter. rewrite list_elem_of_filter. by intros [? _]. Qed.
End PredicateLayer.

(** ** What each operation does, branch by branch *)

Section Outcomes.
Context {Cluster : Type} `{!Encoders}.
Implicit Types (w : World Cluster).

Lemma heap_extends_alloc_Ingress w i :
  heap_extends w (set_ingresses (<[fresh (dom (ingresses w)) := i]> (ingresses w)) w).
Proof. repeat split; simpl; [apply alloc_subseteq|done..]. Qed.

Lemma heap_extends_alloc_Service w s :
  heap_extends w (set_services (<[fresh (dom (services w)) := s]> (services w)) w).
Proof. repeat split; simpl; [done|apply alloc_subseteq|done]. Qed.

Lemma heap_extends_alloc_ObjectMeta w m :
  heap_extends w (set_metas (<[fresh (dom (metas w)) := m]> (metas w)) w).
Proof. repeat split; simpl; [done..|apply alloc_subseteq]. Qed.

Lemma EnsureFinalizer_add_outcome ic l i key w :
  ingresses w !! l = Some i →
  needToAddFinalizer (v1beta1.ObjectMeta i) key = true →
  let u := fresh (dom (ingresses w)) in
  let i' := Ingress_set_Finalizers
              (append (meta_v1.Finalizers (v1beta1.ObjectMeta i)) key) i in
  let d := Ingress_diff i i' in
  let wrap := error_patching_Ingress (meta_v1.Namespace (v1beta1.ObjectMeta i))
                (meta_v1.Name (v1beta1.ObjectMeta i)) in
  ∃ r w', EnsureFinalizer (Some l) ic key w = Some (r, w')
    ∧ (∃ pr, PatchIngressObjectMetadata ic (Some l) (v1beta1.ObjectMeta i')
               (set_ingresses (<[u := i']> (ingresses w)) w) = Some (pr, w')
             ∧ r = match pr.2 with
                   | Some err => (None, Some (wrap err))
                   | None => (Some u, None)
                   end)
    ∧ heap_extends w w'
    ∧ ingresses w' !! u = Some i'
    ∧ match d.2 with
      | Some err =>
          r = (None, Some (wrap err)) ∧ requests w' = requests w ∧ cluster w' = cluster w
      | None =>
          let a := Ingress_Patch ic (meta_v1.Name (v1beta1.ObjectMeta i))
                     types.StrategicMergePatchType d.1 meta_v1.PatchOptions_zero []
                     (cluster w) in
          r = match a.1.2 with
              | Some err => (None, Some (wrap err))
              | None => (Some u, None)
              end
          ∧ requests w' = requests w ++ [Ingress_request i d.1]
          ∧ cluster w' = a.2
      end.
Proof.
  intros Hl Hneed u i' d wrap.
  pose (w1 := set_ingresses (<[u := i']> (ingresses w)) w).
  assert (Hl1 : ingresses w1 !! l = Some i).
  { simpl. rewrite lookup_insert_ne; [done|]. symmetry. by eapply fresh_loc_ne. }
  destruct (PatchIngressObjectMetadata_run ic l i (v1beta1.ObjectMeta i') w1 Hl1)
    as (r & w' & Hrun & Hext & Hd).
  rewrite (EnsureFinalizer_add_run ic l i key w Hl Hneed). fold u i' w1.
  rewrite Hrun.
  change (Ingress_diff i (v1beta1.set_ObjectMeta (v1beta1.ObjectMeta i') i)) with d in Hd.
  assert (Hext0 : heap_extends w w').
  { eapply heap_extends_trans; [apply (heap_extends_alloc_Ingress w i')|exact Hext]. }
  assert (Hu : ingresses w' !! u = Some i').
  { destruct Hext as (Hsub & _). eapply lookup_weaken; [|exact Hsub].
    simpl. apply lookup_insert_eq. }
  exists (match r.2 with
          | Some err => (None, Some (wrap err))
          | None => (Some u, None)
          end), w'.
  split; [by destruct r.2|]. split; [by exists r|].
  split; [exact Hext0|]. split; [exact Hu|].
  destruct (d.2) as [err|] eqn:Hd2.
  - by destruct Hd as [-> ->].
  - simpl in Hd. destruct Hd as (Hr2 & Hc & Hreq). by rewrite Hr2.
Qed.

Lemma EnsureDeleteFinalizer_remove_outcome ic l i key w :
  ingresses w !! l = Some i →
  HasGivenFinalizer (v1beta1.ObjectMeta i) key = true →
  let mp := fresh (dom (metas w)) in
  let m' := meta_v1.set_Finalizers
              (slice.RemoveString (meta_v1.Finalizers (v1beta1.ObjectMeta i)) key None)
              (v1beta1.ObjectMeta i) in
  let d := Ingress_diff i (v1beta1.set_ObjectMeta m' i) in
  let wrap := error_patching_Ingress (meta_v1.Namespace (v1beta1.ObjectMeta i))
                (meta_v1.Name (v1beta1.ObjectMeta i)) in
  ∃ r w', EnsureDeleteFinalizer (Some l) ic key w = Some (r, w')
    ∧ (∃ pr, PatchIngressObjectMetadata ic (Some l) m'
               (set_metas (<[mp := m']> (metas w)) w) = Some (pr, w')
             ∧ r = wrap <$> pr.2)
    ∧ heap_extends w w'
    ∧ metas w' !! mp = Some m'
    ∧ match d.2 with
      | Some err =>
          r = Some (wrap err) ∧ requests w' = requests w ∧ cluster w' = cluster w
      | None =>
          let a := Ingress_Patch ic (meta_v1.Name (v1beta1.ObjectMeta i))
                     types.StrategicMergePatchType d.1 meta_v1.PatchOptions_zero []
                     (cluster w) in
          r = wrap <$> a.1.2
          ∧ requests w' = requests w ++ [Ingress_request i d.1]
          ∧ cluster w' = a.2
      end.
Proof.
  intros Hl Hhas mp m' d wrap.
  pose (w1 := set_metas (<[mp := m']> (metas w)) w).
  assert (Hl1 : ingresses w1 !! l = Some i) by done.
  destruct (PatchIngressObjectMetadata_run ic l i m' w1 Hl1)
    as (r & w' & Hrun & Hext & Hd).
  rewrite (EnsureDeleteFinalizer_remove_run ic l i key w Hl Hhas). fold mp m' w1.
  rewrite Hrun. fold d in Hd.
  assert (Hext0 : heap_extends w w').
  { eapply heap_extends_trans; [apply (heap_extends_alloc_ObjectMeta w m')|exact Hext]. }
  assert (Hu : metas w' !! mp = Some m').
  { destruct Hext as (_ & _ & Hsub). eapply lookup_weaken; [|exact Hsub].
    simpl. apply lookup_insert_eq. }
  exists (wrap <$> r.2), w'.
  split; [by destruct r.2|]. split; [by exists r|].
  split; [exact Hext0|]. split; [exact Hu|].
  destruct (d.2) as [err|] eqn:Hd2.
  - by destruct Hd as [-> ->].
  - simpl in Hd. destruct Hd as (Hr2 & Hc & Hreq). by rewrite Hr2.
Qed.

(** Both Service operations end in [patchServiceFinalizer] on the original
    and a new copy [s']. *)
Lemma patchServiceFinalizer_copy_outcome kc l s s' w :
  services w !! l = Some s →
  let u := fresh (dom (services w)) in
  let w1 := set_services (<[u := s']> (services w)) w in
  let sc := Services (CoreV1 kc) (meta_v1.Namespace (corev1.ObjectMeta s)) in
  let d := Service_diff s s' in
  ∃ r w', patchServiceFinalizer sc (Some l) (Some u) w1 = Some (r, w')
    ∧ heap_extends w w'
    ∧ services w' !! u = Some s'
    ∧ match d.2 with
      | Some err => r = Some err ∧ requests w' = requests w ∧ cluster w' = cluster w
      | None =>
          let a := Service_Patch sc (meta_v1.Name (corev1.ObjectMeta s))
                     types.StrategicMergePatchType d.1 meta_v1.PatchOptions_zero
                     ["status"] (cluster w) in
          r = a.1.2
          ∧ requests w' = requests w ++ [Service_request s d.1]
          ∧ cluster w' = a.2
      end.
Proof.
  intros Hl u w1 sc d.
  assert (Hl1 : services w1 !! l = Some s).
  { simpl. rewrite lookup_insert_ne; [done|]. symmetry. by eapply fresh_loc_ne. }
  assert (Hu1 : services w1 !! u = Some s') by (simpl; apply lookup_insert_eq).
  destruct (patchServiceFinalizer_run sc l u s s' w1 Hl1 Hu1)
    as (r & w' & Hrun & Hext & Hd).
  fold d in Hd. exists r, w'. split; [exact Hrun|].
  split. { eapply heap_extends_trans; [apply (heap_extends_alloc_Service w s')|exact Hext]. }
  split. { destruct Hext as (_ & Hsub & _). by eapply lookup_weaken. }
  destruct (d.2) as [err|].
  - by destruct Hd as [-> ->].
  - simpl in Hd. destruct Hd as (-> & Hc & Hreq). done.
Qed.
End Outcomes.

(** * The contract *)

(** ** Predicate layer *)

(** C2.  [HasGivenFinalizer m t] is true exactly when [t] is an element of
    [m.Finalizers]: elements are compared as whole strings, and the position
    does not matter, so any reordering of the list gives the same answer. *)
Theorem HasGivenFinalizer_iff_elem (m : meta_v1.ObjectMeta) (t : string) :
  (HasGivenFinalizer m t = true ↔ t ∈ meta_v1.Finalizers m)
  ∧ (∀ fs, fs ≡ₚ meta_v1.Finalizers m →
       HasGivenFinalizer (meta_v1.set_Finalizers fs m) t = HasGivenFinalizer m t).
Proof.
  split; [apply HasGivenFinalizer_true|].
  intros fs Hperm. rewrite !HasGivenFinalizer_decide. simpl.
  apply bool_decide_ext. by rewrite Hperm.
Qed.

(** The token is found at the end of one list and at the head of its
    reordering; a longer token with the same prefix is not. *)
Lemma HasGivenFinalizer_iff_elem_witness :
  let m := Fake.meta "web" None ["other"; FinalizerKey] in
  HasGivenFinalizer m FinalizerKey = true
  ∧ HasGivenFinalizer (meta_v1.set_Finalizers [FinalizerKey; "other"] m) FinalizerKey = true
  ∧ HasGivenFinalizer m FinalizerKeyV2 = false.
Proof.
  intros m.
  assert (Hin : FinalizerKey ∈ meta_v1.Finalizers m) by (right; left).
  pose proof (proj2 (proj1 (HasGivenFinalizer_iff_elem m FinalizerKey)) Hin) as Hhas.
  split; [exact Hhas|]. split; [|reflexivity].
  rewrite (proj2 (HasGivenFinalizer_iff_elem m FinalizerKey) [FinalizerKey; "other"]).
  - exact Hhas.
  - apply perm_swap.
Defined.

(** C3.  [IsDeletionCandidate m] is the conjunction of "the deletion
    timestamp is set" and [HasFinalizer m], although the code computes it as
    the disjunction of the two per-token candidate checks. *)
Theorem IsDeletionCandidate_conjunction (m : meta_v1.ObjectMeta) :
  IsDeletionCandidate m = not_nil (meta_v1.DeletionTimestamp m) && HasFinalizer m.
Proof.
  unfold IsDeletionCandidate, IsDeletionCandidateForGivenFinalizer, HasFinalizer.
  by rewrite andb_orb_distrib_r.
Qed.

(** ** Mutation layer *)

Section Contract.
Context {Cluster : Type} `{!Encoders}.
Implicit Types (w : World Cluster) (ic : IngressInterface Cluster)
  (kc : kubernetes_Interface Cluster) (key : string).

(** C1.  On a valid Ingress pointer [EnsureFinalizer] always returns, and

    - if the deletion timestamp is nil and the token is not among the
      finalizers, the copy (the new object [u]) carries the finalizers with
      the token appended; the original and the metadata of that copy go
      through [PatchIngressObjectMetadata] once, which is all that happens
      after the copy is made; and the store receives exactly one request,
      the patch from the original to the copy (the encoders being able to
      produce it);
    - otherwise the world only gains the copy: it is returned, it equals the
      input, the request log and the store are as before.

    So a request is sent only in the first case. *)
Theorem EnsureFinalizer_patches_iff_needed ic (l : loc) (i : v1beta1.Ingress) key w :
  ingresses w !! l = Some i →
  let m := v1beta1.ObjectMeta i in
  let u := fresh (dom (ingresses w)) in
  let i' := Ingress_set_Finalizers (meta_v1.Finalizers m ++ [key]) i in
  let d := Ingress_diff i i' in
  ∃ r w', EnsureFinalizer (Some l) ic key w = Some (r, w')
    ∧ (meta_v1.DeletionTimestamp m = None ∧ key ∉ meta_v1.Finalizers m →
         ingresses w' !! u = Some i'
         ∧ (∃ pr, PatchIngressObjectMetadata ic (Some l) (v1beta1.ObjectMeta i')
                    (set_ingresses (<[u := i']> (ingresses w)) w) = Some (pr, w'))
         ∧ (d.2 = None → requests w' = requests w ++ [Ingress_request i d.1]))
    ∧ (¬ (meta_v1.DeletionTimestamp m = None ∧ key ∉ meta_v1.Finalizers m) →
         r = (Some u, None) ∧ ingresses w' !! u = Some i
         ∧ requests w' = requests w ∧ cluster w' = cluster w)
    ∧ (requests w' ≠ requests w →
         meta_v1.DeletionTimestamp m = None ∧ key ∉ meta_v1.Finalizers m).
Proof.
  intros Hl m u i' d.
  destruct (needToAddFinalizer m key) eqn:Hneed.
  - destruct (EnsureFinalizer_add_outcome ic l i key w Hl Hneed)
      as (r & w' & Hrun & (pr & Hdel & _) & _ & Hu & Hd).
    apply needToAddFinalizer_true in Hneed.
    exists r, w'. split; [exact Hrun|]. split; [|split; [by intros []|done]].
    intros _. split; [exact Hu|]. split; [by exists pr|]. intros Hd2.
    change (Ingress_diff i _) with d in Hd. rewrite Hd2 in Hd. by destruct Hd as (_ & ? & _).
  - rewrite (EnsureFinalizer_noop_run ic l i key w Hl Hneed).
    apply needToAddFinalizer_false in Hneed.
    eexists _, _. split; [reflexivity|]. simpl.
    split; [by intros ?|]. split; [|by intros []].
    intros _. repeat split. apply lookup_insert_eq.
Qed.

(** C7.  [EnsureFinalizer] returns without an error exactly with the pointer
    to the deep copy, a new object distinct from the input, whether the
    copy was patched in (token appended, one request) or no write was
    needed (copy equal to the input, no request).  With an error the pointer
    is nil and the error is the one [PatchIngressObjectMetadata] returned,
    wrapped with the namespace and the name of the Ingress; in particular
    the error the store answers to the patch is wrapped this way. *)
Theorem EnsureFinalizer_returns_copy_or_wrapped_error ic (l : loc)
    (i : v1beta1.Ingress) key w :
  ingresses w !! l = Some i →
  let m := v1beta1.ObjectMeta i in
  let u := fresh (dom (ingresses w)) in
  let i' := Ingress_set_Finalizers (append (meta_v1.Finalizers m) key) i in
  let d := Ingress_diff i i' in
  let wrap := error_patching_Ingress (meta_v1.Namespace m) (meta_v1.Name m) in
  ∃ r w', EnsureFinalizer (Some l) ic key w = Some (r, w')
    ∧ u ≠ l ∧ ingresses w !! u = None
    ∧ (r.2 = None →
         r.1 = Some u
         ∧ ingresses w' !! u = Some (if needToAddFinalizer m key then i' else i)
         ∧ (requests w' = requests w ∨ ∃ q, requests w' = requests w ++ [q]))
    ∧ (∀ e, r.2 = Some e →
         r.1 = None
         ∧ ∃ pr e0, PatchIngressObjectMetadata ic (Some l) (v1beta1.ObjectMeta i')
                      (set_ingresses (<[u := i']> (ingresses w)) w) = Some (pr, w')
                    ∧ pr.2 = Some e0 ∧ e = wrap e0)
    ∧ (needToAddFinalizer m key = true → d.2 = None →
         ∀ e0, (Ingress_Patch ic (meta_v1.Name m) types.StrategicMergePatchType d.1
                  meta_v1.PatchOptions_zero [] (cluster w)).1.2 = Some e0 →
               r = (None, Some (wrap e0))).
Proof.
  intros Hl m u i' d wrap.
  assert (Hne : u ≠ l) by (symmetry; by eapply fresh_loc_ne).
  assert (Hfresh : ingresses w !! u = None) by apply fresh_loc_None.
  destruct (needToAddFinalizer m key) eqn:Hneed.
  - destruct (EnsureFinalizer_add_outcome ic l i key w Hl Hneed)
      as (r & w' & Hrun & (pr & Hdel & Hr) & _ & Hu & Hd).
    exists r, w'. split; [exact Hrun|]. do 2 (split; [done|]).
    change (Ingress_diff i _) with d in Hd. fold m wrap in Hd, Hr.
    split; [|split].
    + intros Hnone. destruct (pr.2) as [err|]; [by subst r|]. subst r.
      split; [done|]. split; [exact Hu|].
      destruct (d.2) as [err|]; [by destruct Hd as ([= ] & _)|].
      simpl in Hd. destruct Hd as (_ & Hreq & _). right. by eexists.
    + intros e He. destruct (pr.2) as [err|] eqn:Hpr; subst r; [|done].
      injection He as <-. split; [done|]. by exists pr, err.
    + intros _ Hd2 e0 He0. rewrite Hd2 in Hd. simpl in Hd.
      destruct Hd as (-> & _). by rewrite He0.
  - rewrite (EnsureFinalizer_noop_run ic l i key w Hl Hneed).
    eexists _, _. split; [reflexivity|]. do 2 (split; [done|]). simpl.
    split; [|split; [done|done]].
    intros _. split; [done|]. split; [apply lookup_insert_eq|by left].
Qed.
End Contract.

(** Scenario 1 of the spec: no finalizers, token ["F1"]: one patch. *)
Lemma EnsureFinalizer_patches_iff_needed_witness :
  let w := Fake.world (Fake.ingress None []) (Fake.service None []) in
  ∃ r w', @EnsureFinalizer _ Fake.encoders (Some 1%positive) Fake.ingClient "F1" w = Some (r, w')
    ∧ ingresses w' !! 2%positive = Some (Fake.ingress None ["F1"])
    ∧ length (requests w') = 1.
Proof.
  intros w.
  destruct (@EnsureFinalizer_patches_iff_needed _ Fake.encoders Fake.ingClient 1%positive
              (Fake.ingress None []) "F1" w eq_refl)
    as (r & w' & Hrun & Hadd & _).
  exists r, w'. split; [exact Hrun|].
  destruct Hadd as (Hcopy & _ & Hreq).
  { split; [reflexivity|]. apply not_elem_of_nil. }
  split; [exact Hcopy|]. rewrite Hreq by reflexivity. reflexivity.
Defined.

(** The store does not know the Ingress: nil and the wrapped store error. *)
Lemma EnsureFinalizer_returns_copy_or_wrapped_error_witness :
  let i := v1beta1.mkIngress (Fake.meta "gone" None []) "rules" "" in
  let w := Fake.world i (Fake.service None []) in
  ∃ r w', @EnsureFinalizer _ Fake.encoders (Some 1%positive) Fake.ingClient "F1" w = Some (r, w')
    ∧ r = (None, Some "error patching Ingress default/gone: ingresses gone not found").
Proof.
  intros i w.
  destruct (@EnsureFinalizer_returns_copy_or_wrapped_error _ Fake.encoders Fake.ingClient
              1%positive i "F1" w eq_refl)
    as (r & w' & Hrun & _ & _ & _ & _ & Hstore).
  exists r, w'. split; [exact Hrun|].
  apply (Hstore eq_refl eq_refl "ingresses gone not found"). reflexivity.
Defined.

Section ContractAbsent.
Context {Cluster : Type} `{!Encoders}.
Implicit Types (w : World Cluster) (ic : IngressInterface Cluster)
  (kc : kubernetes_Interface Cluster) (key : string).

(** C6.  Ensure-absent, on an Ingress and on a Service.  When the token is
    not among the finalizers the call succeeds and the world is exactly as
    before: nothing is sent, nothing is allocated.  When the token is there,
    a copy is built (of the metadata for an Ingress, of the whole object for
    a Service) whose finalizers are those of the input without any
    occurrence of the token, the others in their order, and the store
    receives exactly one request, the patch from the original to that copy
    (the encoders being able to produce it). *)
Theorem ensure_absent_noop_or_one_patch ic kc (li ls : loc)
    (i : v1beta1.Ingress) (s : corev1.Service) key w :
  ingresses w !! li = Some i →
  services w !! ls = Some s →
  (let fs := meta_v1.Finalizers (v1beta1.ObjectMeta i) in
   let m' := meta_v1.set_Finalizers (filter (λ x, x ≠ key) fs) (v1beta1.ObjectMeta i) in
   let d := Ingress_diff i (v1beta1.set_ObjectMeta m' i) in
   ∃ r w', EnsureDeleteFinalizer (Some li) ic key w = Some (r, w')
     ∧ (key ∉ fs → r = None ∧ w' = w)
     ∧ (key ∈ fs →
          metas w' !! (fresh (dom (metas w))) = Some m'
          ∧ (key ∉ meta_v1.Finalizers m')
          ∧ (∃ pr, PatchIngressObjectMetadata ic (Some li) m'
                     (set_metas (<[fresh (dom (metas w)) := m']> (metas w)) w)
                   = Some (pr, w'))
          ∧ (d.2 = None → requests w' = requests w ++ [Ingress_request i d.1])))
  ∧
  (let fs := meta_v1.Finalizers (corev1.ObjectMeta s) in
   let s' := Service_set_Finalizers (filter (λ x, x ≠ key) fs) s in
   let d := Service_diff s s' in
   ∃ r w', EnsureDeleteServiceFinalizer (Some ls) key kc w = Some (r, w')
     ∧ (key ∉ fs → r = None ∧ w' = w)
     ∧ (key ∈ fs →
          services w' !! (fresh (dom (services w))) = Some s'
          ∧ (key ∉ meta_v1.Finalizers (corev1.ObjectMeta s'))
          ∧ patchServiceFinalizer
              (Services (CoreV1 kc) (meta_v1.Namespace (corev1.ObjectMeta s)))
              (Some ls) (Some (fresh (dom (services w))))
              (set_services (<[fresh (dom (services w)) := s']> (services w)) w)
            = Some (r, w')
          ∧ (d.2 = None → requests w' = requests w ++ [Service_request s d.1]))).
Proof.
  intros Hi Hs. split.
  - intros fs m' d.
    destruct (HasGivenFinalizer (v1beta1.ObjectMeta i) key) eqn:Hhas.
    + destruct (EnsureDeleteFinalizer_remove_outcome ic li i key w Hi Hhas)
        as (r & w' & Hrun & (pr & Hdel & _) & _ & Hcopy & Hd).
      rewrite RemoveString_filter in Hcopy, Hd, Hdel. fold fs m' d in Hcopy, Hd, Hdel.
      apply HasGivenFinalizer_true in Hhas.
      exists r, w'. split; [exact Hrun|]. split; [done|].
      intros _. split; [exact Hcopy|]. split; [|split; [by exists pr|]].
      * simpl. rewrite <- RemoveString_filter. apply RemoveString_removes.
      * intros Hd2. rewrite Hd2 in Hd. by destruct Hd as (_ & ? & _).
    + rewrite (EnsureDeleteFinalizer_noop_run ic li i key w Hi Hhas).
      apply HasGivenFinalizer_false in Hhas.
      eexists _, _. split; [reflexivity|]. split; done.
  - intros fs s' d.
    destruct (HasGivenFinalizer (corev1.ObjectMeta s) key) eqn:Hhas.
    + rewrite (EnsureDeleteServiceFinalizer_remove_run kc ls s key w Hs Hhas).
      rewrite RemoveString_filter. fold fs s'.
      destruct (patchServiceFinalizer_copy_outcome kc ls s s' w Hs)
        as (r & w' & Hrun & _ & Hcopy & Hd).
      fold d in Hd. apply HasGivenFinalizer_true in Hhas.
      exists r, w'. split; [exact Hrun|]. split; [done|].
      intros _. split; [exact Hcopy|]. split; [|split; [exact Hrun|]].
      * simpl. rewrite <- RemoveString_filter. apply RemoveString_removes.
      * intros Hd2. rewrite Hd2 in Hd. by destruct Hd as (_ & ? & _).
    + rewrite (EnsureDeleteServiceFinalizer_noop_run kc ls s key w Hs Hhas).
      apply HasGivenFinalizer_false in Hhas.
      eexists _, _. split; [reflexivity|]. split; done.
Qed.

(** C8.  None of the four operations changes an object that existed before
    the call: the heap after the call contains the heap before it, so the
    object the caller passed, and its finalizers with it, is the same
    before and after; what the operations write, they write to objects
    they allocated. *)
Theorem mutations_leave_input_unchanged ic kc (li ls : loc)
    (i : v1beta1.Ingress) (s : corev1.Service) key w :
  ingresses w !! li = Some i →
  services w !! ls = Some s →
  (∃ r w', EnsureFinalizer (Some li) ic key w = Some (r, w')
     ∧ heap_extends w w' ∧ ingresses w' !! li = Some i)
  ∧ (∃ r w', EnsureDeleteFinalizer (Some li) ic key w = Some (r, w')
       ∧ heap_extends w w' ∧ ingresses w' !! li = Some i)
  ∧ (∃ r w', EnsureServiceFinalizer (Some ls) key kc w = Some (r, w')
       ∧ heap_extends w w' ∧ services w' !! ls = Some s)
  ∧ (∃ r w', EnsureDeleteServiceFinalizer (Some ls) key kc w = Some (r, w')
       ∧ heap_extends w w' ∧ services w' !! ls = Some s).
Proof.
  intros Hi Hs.
  assert (Hkeep_i : ∀ w', heap_extends w w' → ingresses w' !! li = Some i).
  { intros w' (Hsub & _). by eapply lookup_weaken. }
  assert (Hkeep_s : ∀ w', heap_extends w w' → services w' !! ls = Some s).
  { intros w' (_ & Hsub & _). by eapply lookup_weaken. }
  repeat split.
  - destruct (needToAddFinalizer (v1beta1.ObjectMeta i) key) eqn:Hneed.
    + destruct (EnsureFinalizer_add_outcome ic li i key w Hi Hneed)
        as (r & w' & Hrun & _ & Hext & _).
      exists r, w'. auto.
    + rewrite (EnsureFinalizer_noop_run ic li i key w Hi Hneed).
      eexists _, _. split; [reflexivity|].
      pose proof (heap_extends_alloc_Ingress w i). auto.
  - destruct (HasGivenFinalizer (v1beta1.ObjectMeta i) key) eqn:Hhas.
    + destruct (EnsureDeleteFinalizer_remove_outcome ic li i key w Hi Hhas)
        as (r & w' & Hrun & _ & Hext & _).
      exists r, w'. auto.
    + rewrite (EnsureDeleteFinalizer_noop_run ic li i key w Hi Hhas).
      eexists _, _. split; [reflexivity|]. split; [apply heap_extends_refl|done].
  - destruct (HasGivenFinalizer (corev1.ObjectMeta s) key) eqn:Hhas.
    + rewrite (EnsureServiceFinalizer_noop_run kc ls s key w Hs Hhas).
      eexists _, _. split; [reflexivity|]. split; [apply heap_extends_refl|done].
    + rewrite (EnsureServiceFinalizer_add_run kc ls s key w Hs Hhas).
      destruct (patchServiceFinalizer_copy_outcome kc ls s
                  (Service_set_Finalizers
                     (append (meta_v1.Finalizers (corev1.ObjectMeta s)) key) s) w Hs)
        as (r & w' & Hrun & Hext & _).
      exists r, w'. auto.
  - destruct (HasGivenFinalizer (corev1.ObjectMeta s) key) eqn:Hhas.
    + rewrite (EnsureDeleteServiceFinalizer_remove_run kc ls s key w Hs Hhas).
      destruct (patchServiceFinalizer_copy_outcome kc ls s
                  (Service_set_Finalizers
                     (slice.RemoveString (meta_v1.Finalizers (corev1.ObjectMeta s)) key None)
                     s) w Hs)
        as (r & w' & Hrun & Hext & _).
      exists r, w'. auto.
    + rewrite (EnsureDeleteServiceFinalizer_noop_run kc ls s key w Hs Hhas).
      eexists _, _. split; [reflexivity|]. split; [apply heap_extends_refl|done].
Qed.
End ContractAbsent.

Section ContractService.
Context {Cluster : Type} `{!Encoders}.
Implicit Types (w : World Cluster) (ic : IngressInterface Cluster)
  (kc : kubernetes_Interface Cluster) (key : string).

(** C9.  [EnsureServiceFinalizer] and [EnsureDeleteServiceFinalizer] return
    an [error] and nothing else, and send at most one request per call.
    A request they send is a strategic merge patch to the named Service
    with the sub-resource ["status"], and its body is the two-way merge
    patch between the encodings of the whole original and of a copy that
    differs from it in the finalizers of the metadata only: the metadata
    change travels through the status sub-resource path. *)
Theorem service_writes_are_status_scoped_strategic_patches kc (l : loc)
    (s : corev1.Service) key w :
  services w !! l = Some s →
  let sent_by (op : ptr → string → kubernetes_Interface Cluster → M Cluster error) :=
    ∃ (r : error) w' new,
      op (Some l) key kc w = Some (r, w')
      ∧ requests w' = requests w ++ new
      ∧ length new ≤ 1
      ∧ Forall (λ q,
          req_resource q = Schema_Service
          ∧ req_name q = meta_v1.Name (corev1.ObjectMeta s)
          ∧ req_type q = types.StrategicMergePatchType
          ∧ req_subresources q = ["status"]
          ∧ ∃ fs, req_data q = (Service_diff s (Service_set_Finalizers fs s)).1) new in
  sent_by EnsureServiceFinalizer ∧ sent_by EnsureDeleteServiceFinalizer.
Proof.
  intros Hl sent_by.
  assert (Hpatch : ∀ fs r w',
    patchServiceFinalizer
      (Services (CoreV1 kc) (meta_v1.Namespace (corev1.ObjectMeta s))) (Some l)
      (Some (fresh (dom (services w))))
      (set_services (<[fresh (dom (services w)) := Service_set_Finalizers fs s]>
                       (services w)) w) = Some (r, w') →
    ∃ new, requests w' = requests w ++ new ∧ length new ≤ 1
      ∧ Forall (λ q,
          req_resource q = Schema_Service
          ∧ req_name q = meta_v1.Name (corev1.ObjectMeta s)
          ∧ req_type q = types.StrategicMergePatchType
          ∧ req_subresources q = ["status"]
          ∧ ∃ fs, req_data q = (Service_diff s (Service_set_Finalizers fs s)).1) new).
  { intros fs r w' Hrun.
    destruct (patchServiceFinalizer_copy_outcome kc l s (Service_set_Finalizers fs s) w Hl)
      as (r0 & w0 & Hrun0 & _ & _ & Hd).
    rewrite Hrun in Hrun0. injection Hrun0 as <- <-.
    destruct (Service_diff s (Service_set_Finalizers fs s)).2 as [err|] eqn:Hd2.
    - destruct Hd as (_ & Hreq & _). exists []. rewrite app_nil_r.
      split; [done|]. split; [simpl; lia|constructor].
    - simpl in Hd. destruct Hd as (_ & Hreq & _). eexists [_].
      split; [exact Hreq|]. split; [simpl; lia|].
      constructor; [|constructor]. simpl. repeat split. by exists fs. }
  split.
  - destruct (HasGivenFinalizer (corev1.ObjectMeta s) key) eqn:Hhas.
    + exists None, w, []. rewrite app_nil_r.
      split; [by apply EnsureServiceFinalizer_noop_run with s|].
      split; [done|]. split; [simpl; lia|constructor].
    + pose proof (EnsureServiceFinalizer_add_run kc l s key w Hl Hhas) as Hrun.
      simpl in Hrun.
      destruct (patchServiceFinalizer_copy_outcome kc l s
                  (Service_set_Finalizers
                     (append (meta_v1.Finalizers (corev1.ObjectMeta s)) key) s) w Hl)
        as (r & w' & Hrun' & _).
      destruct (Hpatch _ r w' Hrun') as (new & ? & ? & ?).
      exists r, w', new. split; [by rewrite Hrun|]. done.
  - destruct (HasGivenFinalizer (corev1.ObjectMeta s) key) eqn:Hhas.
    + pose proof (EnsureDeleteServiceFinalizer_remove_run kc l s key w Hl Hhas) as Hrun.
      simpl in Hrun.
      destruct (patchServiceFinalizer_copy_outcome kc l s
                  (Service_set_Finalizers
                     (slice.RemoveString (meta_v1.Finalizers (corev1.ObjectMeta s)) key None)
                     s) w Hl)
        as (r & w' & Hrun' & _).
      destruct (Hpatch _ r w' Hrun') as (new & ? & ? & ?).
      exists r, w', new. split; [by rewrite Hrun|]. done.
    + exists None, w, []. rewrite app_nil_r.
      split; [by apply EnsureDeleteServiceFinalizer_noop_run with s|].
      split; [done|]. split; [simpl; lia|constructor].
Qed.

(** C10.  [EnsureServiceFinalizer] never looks at the deletion timestamp:
    for a Service whose finalizers lack the token, whatever its deletion
    timestamp, the copy gets the token appended and the store receives the
    patch from the original to that copy (the encoders being able to
    produce it).  [EnsureFinalizer] on an Ingress with the same metadata
    sends nothing once the deletion timestamp is set. *)
Theorem EnsureServiceFinalizer_ignores_DeletionTimestamp kc ic (ls li : loc)
    (s : corev1.Service) (i : v1beta1.Ingress) key w :
  services w !! ls = Some s →
  ingresses w !! li = Some i →
  key ∉ meta_v1.Finalizers (corev1.ObjectMeta s) →
  let s' := Service_set_Finalizers (meta_v1.Finalizers (corev1.ObjectMeta s) ++ [key]) s in
  let d := Service_diff s s' in
  (∃ r w', EnsureServiceFinalizer (Some ls) key kc w = Some (r, w')
     ∧ services w' !! (fresh (dom (services w))) = Some s'
     ∧ patchServiceFinalizer
         (Services (CoreV1 kc) (meta_v1.Namespace (corev1.ObjectMeta s)))
         (Some ls) (Some (fresh (dom (services w))))
         (set_services (<[fresh (dom (services w)) := s']> (services w)) w)
       = Some (r, w')
     ∧ (d.2 = None → requests w' = requests w ++ [Service_request s d.1]))
  ∧ (v1beta1.ObjectMeta i = corev1.ObjectMeta s →
     meta_v1.DeletionTimestamp (corev1.ObjectMeta s) ≠ None →
     ∃ r w', EnsureFinalizer (Some li) ic key w = Some (r, w')
       ∧ requests w' = requests w).
Proof.
  intros Hs Hi Hnot s' d. split.
  - apply HasGivenFinalizer_false in Hnot.
    rewrite (EnsureServiceFinalizer_add_run kc ls s key w Hs Hnot).
    destruct (patchServiceFinalizer_copy_outcome kc ls s s' w Hs)
      as (r & w' & Hrun & _ & Hcopy & Hd).
    exists r, w'. split; [exact Hrun|]. split; [exact Hcopy|]. split; [exact Hrun|].
    intros Hd2. fold d in Hd. rewrite Hd2 in Hd. by destruct Hd as (_ & ? & _).
  - intros Hmeta Hdt.
    assert (Hneed : needToAddFinalizer (v1beta1.ObjectMeta i) key = false).
    { apply needToAddFinalizer_false. rewrite Hmeta. by intros [? _]. }
    rewrite (EnsureFinalizer_noop_run ic li i key w Hi Hneed).
    eexists _, _. split; [reflexivity|]. done.
Qed.
End ContractService.

Section ContractAlgebra.
Context {Cluster : Type} `{!Encoders}.
Implicit Types (w : World Cluster) (ic : IngressInterface Cluster)
  (kc : kubernetes_Interface Cluster) (key : string).

(** C4, as amended.  Ensure-present is idempotent on an up-to-date view of
    the resource; the operations never change the object they are given, so
    the second call has to be made on an object that shows what the first
    one did.

    Ingress: when the first call succeeds, a second call on the copy it
    returned succeeds too, returns a copy with the very same contents (so
    the same finalizers), and sends nothing and leaves the store alone;
    the two calls together send at most one request.

    Service: the call returns only an error, so the second call is made on
    a snapshot that shows the finalizers the first call left or asked for
    (the input's when the token was there, the input's with the token
    appended otherwise; such a snapshot is on the heap after the call).
    On every such snapshot the second call succeeds and changes nothing at
    all; the first call sent at most one request. *)
Theorem ensure_present_idempotent ic kc (li ls : loc)
    (i : v1beta1.Ingress) (s : corev1.Service) key w :
  ingresses w !! li = Some i →
  services w !! ls = Some s →
  (∀ p w1, EnsureFinalizer (Some li) ic key w = Some ((p, None), w1) →
     ∃ i1 p2 w2,
       load_Ingress p w1 = Some (i1, w1)
       ∧ EnsureFinalizer p ic key w1 = Some ((p2, None), w2)
       ∧ load_Ingress p2 w2 = Some (i1, w2)
       ∧ requests w2 = requests w1
       ∧ cluster w2 = cluster w1
       ∧ length (requests w2) ≤ S (length (requests w)))
  ∧ (let fs := meta_v1.Finalizers (corev1.ObjectMeta s) in
     let fs1 := if HasGivenFinalizer (corev1.ObjectMeta s) key then fs else append fs key in
     ∃ r w1, EnsureServiceFinalizer (Some ls) key kc w = Some (r, w1)
       ∧ length (requests w1) ≤ S (length (requests w))
       ∧ (∃ p1 s1, services w1 !! p1 = Some s1
                   ∧ meta_v1.Finalizers (corev1.ObjectMeta s1) = fs1)
       ∧ (∀ p1 s1, services w1 !! p1 = Some s1 →
            meta_v1.Finalizers (corev1.ObjectMeta s1) = fs1 →
            EnsureServiceFinalizer (Some p1) key kc w1 = Some (None, w1))).
Proof.
  intros Hi Hs. split.
  - intros p w1 Hrun.
    set (u := fresh (dom (ingresses w))).
    assert (∃ i1, p = Some u ∧ ingresses w1 !! u = Some i1
                  ∧ needToAddFinalizer (v1beta1.ObjectMeta i1) key = false
                  ∧ length (requests w1) ≤ S (length (requests w)))
      as (i1 & -> & Hu & Hneed1 & Hlen).
    { destruct (needToAddFinalizer (v1beta1.ObjectMeta i) key) eqn:Hneed.
      - destruct (EnsureFinalizer_add_outcome ic li i key w Hi Hneed)
          as (r & w' & Hrun' & _ & _ & Hu & Hd).
        rewrite Hrun in Hrun'. injection Hrun' as <- <-. fold u in Hu.
        eexists. split; [|split; [exact Hu|split]].
        + destruct (Ingress_diff _ _).2; [by destruct Hd as ([= ] & _)|].
          simpl in Hd. destruct Hd as (Hr & _).
          destruct (Ingress_Patch _ _ _ _ _ _ _).1.2; by injection Hr.
        + apply needToAddFinalizer_false. intros [_ Hnot]. apply Hnot.
          apply HasGivenFinalizer_true, HasGivenFinalizer_append.
        + destruct (Ingress_diff _ _).2.
          * destruct Hd as (_ & -> & _). lia.
          * simpl in Hd. destruct Hd as (_ & -> & _). rewrite length_app. simpl. lia.
      - rewrite (EnsureFinalizer_noop_run ic li i key w Hi Hneed) in Hrun.
        injection Hrun as <- <-. exists i. split; [done|].
        split; [apply lookup_insert_eq|]. split; [done|]. simpl. lia. }
    rewrite (EnsureFinalizer_noop_run ic u i1 key w1 Hu Hneed1).
    eexists i1, _, _. split; [by simpl; rewrite Hu|].
    split; [reflexivity|]. simpl. rewrite lookup_insert_eq. done.
  - intros fs fs1.
    assert (Hnoop : ∀ w1 p1 s1, services w1 !! p1 = Some s1 →
              meta_v1.Finalizers (corev1.ObjectMeta s1) = fs1 →
              EnsureServiceFinalizer (Some p1) key kc w1 = Some (None, w1)).
    { intros w1 p1 s1 Hp1 Hfs1. apply EnsureServiceFinalizer_noop_run with s1; [done|].
      apply HasGivenFinalizer_true. rewrite Hfs1. subst fs1.
      destruct (HasGivenFinalizer (corev1.ObjectMeta s) key) eqn:Hhas.
      - by apply HasGivenFinalizer_true.
      - apply elem_of_app. right. by apply list_elem_of_singleton. }
    destruct (HasGivenFinalizer (corev1.ObjectMeta s) key) eqn:Hhas.
    + rewrite (EnsureServiceFinalizer_noop_run kc ls s key w Hs Hhas).
      eexists _, _. split; [reflexivity|]. split; [lia|].
      split; [by exists ls, s|]. intros p1 s1. apply Hnoop.
    + rewrite (EnsureServiceFinalizer_add_run kc ls s key w Hs Hhas).
      destruct (patchServiceFinalizer_copy_outcome kc ls s
                  (Service_set_Finalizers (append fs key) s) w Hs)
        as (r & w1 & Hrun & _ & Hcopy & Hd).
      exists r, w1. split; [exact Hrun|]. split.
      { destruct (Service_diff _ _).2.
        - destruct Hd as (_ & -> & _). lia.
        - simpl in Hd. destruct Hd as (_ & -> & _). rewrite length_app. simpl. lia. }
      split; [by eexists _, _|]. intros p1 s1. apply Hnoop.
Qed.

(** C5, as amended.  Let the token be absent from the finalizers.

    Ingress: let ensure-present succeed.  Ensure-absent, called with the
    same token on the copy that was returned, then always returns, and

    - if the deletion timestamp is nil (the token was appended), the
      metadata it builds and patches in is the metadata of the original
      Ingress, finalizers in their original order, and the request it
      sends is the patch from the copy to the original contents;
    - if the deletion timestamp is set (nothing was appended), it succeeds
      without touching anything, and the copy equals the original.

    Service: ensure-present returns, and leaves on the heap the copy with
    the token appended; on every snapshot that shows these finalizers,
    ensure-absent returns and the copy it builds and patches in has the
    original finalizers, in their original order. *)
Theorem ensure_present_then_absent_restores_new_token ic kc (li ls : loc)
    (i : v1beta1.Ingress) (s : corev1.Service) key w :
  ingresses w !! li = Some i →
  services w !! ls = Some s →
  key ∉ meta_v1.Finalizers (v1beta1.ObjectMeta i) →
  key ∉ meta_v1.Finalizers (corev1.ObjectMeta s) →
  (∀ p w1, EnsureFinalizer (Some li) ic key w = Some ((p, None), w1) →
     let m := v1beta1.ObjectMeta i in
     let i' := Ingress_set_Finalizers (append (meta_v1.Finalizers m) key) i in
     let d := Ingress_diff i' (v1beta1.set_ObjectMeta m i') in
     ∃ r w2, EnsureDeleteFinalizer p ic key w1 = Some (r, w2)
       ∧ match meta_v1.DeletionTimestamp m with
         | None =>
             load_Ingress p w1 = Some (i', w1)
             ∧ metas w2 !! (fresh (dom (metas w1))) = Some m
             ∧ (d.2 = None → requests w2 = requests w1 ++ [Ingress_request i' d.1])
         | Some _ =>
             load_Ingress p w1 = Some (i, w1) ∧ r = None ∧ w2 = w1
         end)
  ∧ (let fs := meta_v1.Finalizers (corev1.ObjectMeta s) in
     ∃ r w1, EnsureServiceFinalizer (Some ls) key kc w = Some (r, w1)
       ∧ services w1 !! (fresh (dom (services w)))
         = Some (Service_set_Finalizers (append fs key) s)
       ∧ (∀ p1 s1, services w1 !! p1 = Some s1 →
            meta_v1.Finalizers (corev1.ObjectMeta s1) = append fs key →
            let s1' := Service_set_Finalizers fs s1 in
            let d := Service_diff s1 s1' in
            ∃ r2 w2, EnsureDeleteServiceFinalizer (Some p1) key kc w1 = Some (r2, w2)
              ∧ services w2 !! (fresh (dom (services w1))) = Some s1'
              ∧ (d.2 = None → requests w2 = requests w1 ++ [Service_request s1 d.1]))).
Proof.
  intros Hl Hs Hnot Hnot_s. split.
  - intros p w1 Hrun m i' d.
    set (u := fresh (dom (ingresses w))).
    destruct (needToAddFinalizer m key) eqn:Hneed.
    + destruct (EnsureFinalizer_add_outcome ic li i key w Hl Hneed)
        as (r & w' & Hrun' & _ & _ & Hu & Hd).
      rewrite Hrun in Hrun'. injection Hrun' as <- <-. fold u m i' in Hu, Hd.
      assert (p = Some u) as ->.
      { destruct (Ingress_diff _ _).2; [by destruct Hd as ([= ] & _)|].
        simpl in Hd. destruct Hd as (Hr & _).
        destruct (Ingress_Patch _ _ _ _ _ _ _).1.2; by injection Hr. }
      apply needToAddFinalizer_true in Hneed as [Hdt _]. rewrite Hdt.
      assert (Hhas : HasGivenFinalizer (v1beta1.ObjectMeta i') key = true)
        by apply HasGivenFinalizer_append.
      destruct (EnsureDeleteFinalizer_remove_outcome ic u i' key w1 Hu Hhas)
        as (r2 & w2 & Hrun2 & _ & _ & Hcopy & Hd2).
      assert (Hm : meta_v1.set_Finalizers
                     (slice.RemoveString (meta_v1.Finalizers (v1beta1.ObjectMeta i')) key None)
                     (v1beta1.ObjectMeta i') = m).
      { simpl. rewrite RemoveString_append_new by done.
        subst m. by destruct (v1beta1.ObjectMeta i). }
      rewrite Hm in Hcopy, Hd2. fold d in Hd2.
      exists r2, w2. split; [exact Hrun2|].
      split; [by simpl; rewrite Hu|]. split; [exact Hcopy|].
      intros Hnone. rewrite Hnone in Hd2. by destruct Hd2 as (_ & ? & _).
    + rewrite (EnsureFinalizer_noop_run ic li i key w Hl Hneed) in Hrun.
      injection Hrun as <- <-. fold u.
      assert (Hu : ingresses (set_ingresses (<[u:=i]> (ingresses w)) w) !! u = Some i)
        by apply lookup_insert_eq.
      apply needToAddFinalizer_false in Hneed.
      destruct (meta_v1.DeletionTimestamp m) eqn:Hdt; [|by destruct Hneed].
      apply HasGivenFinalizer_false in Hnot.
      rewrite (EnsureDeleteFinalizer_noop_run ic u i key _ Hu Hnot).
      eexists _, _. split; [reflexivity|]. split; [|done].
      simpl. by rewrite lookup_insert_eq.
  - intros fs.
    pose proof Hnot_s as Hhas. apply HasGivenFinalizer_false in Hhas.
    rewrite (EnsureServiceFinalizer_add_run kc ls s key w Hs Hhas).
    destruct (patchServiceFinalizer_copy_outcome kc ls s
                (Service_set_Finalizers (append fs key) s) w Hs)
      as (r & w1 & Hrun & _ & Hcopy & _).
    exists r, w1. split; [exact Hrun|]. split; [exact Hcopy|].
    intros p1 s1 Hp1 Hfs1 s1' d.
    assert (Hhas1 : HasGivenFinalizer (corev1.ObjectMeta s1) key = true).
    { apply HasGivenFinalizer_true. rewrite Hfs1. apply elem_of_app. right.
      by apply list_elem_of_singleton. }
    rewrite (EnsureDeleteServiceFinalizer_remove_run kc p1 s1 key w1 Hp1 Hhas1).
    rewrite Hfs1, RemoveString_append_new by done. fold s1'.
    destruct (patchServiceFinalizer_copy_outcome kc p1 s1 s1' w1 Hp1)
      as (r2 & w2 & Hrun2 & _ & Hcopy2 & Hd2).
    exists r2, w2. split; [exact Hrun2|]. split; [exact Hcopy2|].
    intros Hnone. fold d in Hd2. rewrite Hnone in Hd2. by destruct Hd2 as (_ & ? & _).
Qed.

End ContractAlgebra.

(** * The contract on the concrete cluster *)


(** Scenario 3 of the spec, with a duplicate: both occurrences go, one patch;
    and the same on a Service. *)
Lemma ensure_absent_noop_or_one_patch_witness :
  let i := Fake.ingress None ["A"; "F2"; "A"] in
  let s := Fake.service None ["A"; "B"; "A"] in
  let w := Fake.world i s in
  (∃ r w', @EnsureDeleteFinalizer _ Fake.encoders (Some 1%positive) Fake.ingClient "A" w
           = Some (r, w')
     ∧ metas w' !! 1%positive = Some (Fake.meta "web" None ["F2"])
     ∧ length (requests w') = 1)
  ∧ (∃ r w', @EnsureDeleteServiceFinalizer _ Fake.encoders (Some 1%positive) "A"
               Fake.kubeClient w = Some (r, w')
       ∧ services w' !! 2%positive = Some (Fake.service None ["B"])
       ∧ length (requests w') = 1).
Proof.
  intros i s w.
  destruct (@ensure_absent_noop_or_one_patch _ Fake.encoders Fake.ingClient Fake.kubeClient
              1%positive 1%positive i s "A" w eq_refl eq_refl)
    as [(r & w' & Hrun & _ & Hin) (r2 & w2 & Hrun2 & _ & Hin2)].
  split.
  - exists r, w'. split; [exact Hrun|].
    destruct Hin as (Hcopy & _ & _ & Hreq); [by_computation|].
    split; [exact Hcopy|]. rewrite Hreq by reflexivity. reflexivity.
  - exists r2, w2. split; [exact Hrun2|].
    destruct Hin2 as (Hcopy & _ & _ & Hreq); [by_computation|].
    split; [exact Hcopy|]. rewrite Hreq by reflexivity. reflexivity.
Defined.

(** After each of the four calls the objects at location 1 are the ones the
    caller passed. *)
Lemma mutations_leave_input_unchanged_witness :
  let i := Fake.ingress None ["A"] in
  let s := Fake.service None ["B"] in
  let w := Fake.world i s in
  (∃ r w', @EnsureFinalizer _ Fake.encoders (Some 1%positive) Fake.ingClient "B" w
           = Some (r, w') ∧ ingresses w' !! 1%positive = Some i)
  ∧ (∃ r w', @EnsureDeleteServiceFinalizer _ Fake.encoders (Some 1%positive) "B"
               Fake.kubeClient w = Some (r, w') ∧ services w' !! 1%positive = Some s).
Proof.
  intros i s w.
  destruct (@mutations_leave_input_unchanged _ Fake.encoders Fake.ingClient Fake.kubeClient
              1%positive 1%positive i s "B" w eq_refl eq_refl)
    as ((r & w' & Hrun & _ & Hsame) & _ & _ & (r4 & w4 & Hrun4 & _ & Hsame4)).
  split; [by exists r, w'|by exists r4, w4].
Defined.

(** Scenario 5 of the spec: the patch that adds ["B"] to a Service. *)
Lemma service_writes_are_status_scoped_strategic_patches_witness :
  let s := Fake.service None ["A"] in
  let w := Fake.world (Fake.ingress None []) s in
  ∃ (r : error) w' new,
    @EnsureServiceFinalizer _ Fake.encoders (Some 1%positive) "B" Fake.kubeClient w
    = Some (r, w')
    ∧ requests w' = new
    ∧ length new ≤ 1
    ∧ Forall (λ q, req_type q = types.StrategicMergePatchType
                   ∧ req_subresources q = ["status"]) new.
Proof.
  intros s w.
  destruct (@service_writes_are_status_scoped_strategic_patches _ Fake.encoders
              Fake.kubeClient 1%positive s "B" w eq_refl)
    as [(r & w' & new & Hrun & Hreq & Hlen & Hall) _].
  exists r, w', new. split; [exact Hrun|]. split; [exact Hreq|]. split; [exact Hlen|].
  eapply Forall_impl; [exact Hall|]. by intros q (_ & _ & ? & ? & _).
Defined.

(** A Service that is being deleted still gets the finalizer; an Ingress
    with the same metadata does not. *)
Lemma EnsureServiceFinalizer_ignores_DeletionTimestamp_witness :
  let s := Fake.service (Some 5%Z) ["A"] in
  let i := v1beta1.mkIngress (Fake.meta "db" (Some 5%Z) ["A"]) "rules" "" in
  let w := Fake.world i s in
  (∃ r w', @EnsureServiceFinalizer _ Fake.encoders (Some 1%positive) "B" Fake.kubeClient w
           = Some (r, w')
     ∧ services w' !! 2%positive = Some (Fake.service (Some 5%Z) ["A"; "B"])
     ∧ length (requests w') = 1)
  ∧ (∃ r w', @EnsureFinalizer _ Fake.encoders (Some 1%positive) Fake.ingClient "B" w
             = Some (r, w')
       ∧ requests w' = []).
Proof.
  intros s i w.
  destruct (@EnsureServiceFinalizer_ignores_DeletionTimestamp _ Fake.encoders
              Fake.kubeClient Fake.ingClient 1%positive 1%positive s i "B" w
              eq_refl eq_refl ltac:(by_computation))
    as [(r & w' & Hrun & Hcopy & _ & Hreq) Hing].
  split.
  - exists r, w'. split; [exact Hrun|]. split; [exact Hcopy|].
    rewrite Hreq by reflexivity. reflexivity.
  - apply Hing; [reflexivity|discriminate].
Defined.

(** Scenarios 1 and 2 of the spec in a row: the second call sends nothing. *)
Lemma ensure_present_idempotent_witness :
  let i := Fake.ingress None [] in
  let s := Fake.service None ["A"] in
  let w := Fake.world i s in
  (∃ w1 p2 w2,
     @EnsureFinalizer _ Fake.encoders (Some 1%positive) Fake.ingClient "F1" w
     = Some ((Some 2%positive, None), w1)
     ∧ @EnsureFinalizer _ Fake.encoders (Some 2%positive) Fake.ingClient "F1" w1
       = Some ((p2, None), w2)
     ∧ requests w2 = requests w1
     ∧ length (requests w2) ≤ 1)
  ∧ (∃ r w1,
       @EnsureServiceFinalizer _ Fake.encoders (Some 1%positive) "B" Fake.kubeClient w
       = Some (r, w1)
       ∧ @EnsureServiceFinalizer _ Fake.encoders (Some 2%positive) "B" Fake.kubeClient w1
         = Some (None, w1)).
Proof.
  intros i s w.
  destruct (@ensure_present_idempotent _ Fake.encoders Fake.ingClient Fake.kubeClient
              1%positive 1%positive i s "F1" w eq_refl eq_refl) as [Hing _].
  destruct (@ensure_present_idempotent _ Fake.encoders Fake.ingClient Fake.kubeClient
              1%positive 1%positive i s "B" w eq_refl eq_refl)
    as [_ (r & w1 & Hrun & _ & _ & Hagain)].
  split.
  - destruct (@EnsureFinalizer _ Fake.encoders (Some 1%positive) Fake.ingClient "F1" w)
      as [[[p e] w1']|] eqn:Hfirst; [|by vm_compute in Hfirst].
    assert (p = Some 2%positive ∧ e = None) as [-> ->].
    { vm_compute in Hfirst. by injection Hfirst as <- <- _. }
    destruct (Hing _ _ eq_refl) as (i1 & p2 & w2 & _ & Hsecond & _ & Hreq & _ & Hlen).
    exists w1', p2, w2. done.
  - exists r, w1. split; [exact Hrun|].
    assert (Hcopy : services w1 !! 2%positive = Some (Fake.service None ["A"; "B"])).
    { vm_compute in Hrun. injection Hrun as _ <-. reflexivity. }
    by apply (Hagain 2%positive _ Hcopy).
Defined.

(** C4 as stated fails when the two calls are made in a row on the same
    object: the first call leaves that object as it was, so the second call
    finds the token missing again and sends the patch again.  On an Ingress
    and on a Service the store receives two requests, not at most one, and
    the second call is not free of writes. *)
Lemma ensure_present_twice_on_same_object_patches_twice :
  let w := Fake.world (Fake.ingress None []) (Fake.service None ["A"]) in
  (∃ p1 w1 p2 w2,
     @EnsureFinalizer _ Fake.encoders (Some 1%positive) Fake.ingClient "F1" w
     = Some ((p1, None), w1)
     ∧ @EnsureFinalizer _ Fake.encoders (Some 1%positive) Fake.ingClient "F1" w1
       = Some ((p2, None), w2)
     ∧ length (requests w1) = 1
     ∧ length (requests w2) = 2
     ∧ ¬ length (requests w2) ≤ 1
     ∧ requests w2 ≠ requests w1)
  ∧ (∃ w1 w2,
       @EnsureServiceFinalizer _ Fake.encoders (Some 1%positive) "B" Fake.kubeClient w
       = Some (None, w1)
       ∧ @EnsureServiceFinalizer _ Fake.encoders (Some 1%positive) "B" Fake.kubeClient w1
         = Some (None, w2)
       ∧ length (requests w1) = 1
       ∧ length (requests w2) = 2
       ∧ ¬ length (requests w2) ≤ 1
       ∧ requests w2 ≠ requests w1).
Proof.
  intros w. split.
  - eexists _, _, _, _.
    split; [vm_compute; reflexivity|]. split; [vm_compute; reflexivity|].
    split; [reflexivity|]. split; [reflexivity|].
    split; [simpl; lia|]. intros Heq. by apply (f_equal length) in Heq.
  - eexists _, _.
    split; [vm_compute; reflexivity|]. split; [vm_compute; reflexivity|].
    split; [reflexivity|]. split; [reflexivity|].
    split; [simpl; lia|]. intros Heq. by apply (f_equal length) in Heq.
Qed.

(** The round trip on a new token: the metadata patched in at the end is the
    original's. *)
Lemma ensure_present_then_absent_restores_new_token_witness :
  let i := Fake.ingress None ["A"; "B"] in
  let w := Fake.world i (Fake.service None ["A"]) in
  ∃ w1 r w2,
    @EnsureFinalizer _ Fake.encoders (Some 1%positive) Fake.ingClient "F1" w
    = Some ((Some 2%positive, None), w1)
    ∧ @EnsureDeleteFinalizer _ Fake.encoders (Some 2%positive) Fake.ingClient "F1" w1
      = Some (r, w2)
    ∧ metas w2 !! (fresh (dom (metas w1))) = Some (v1beta1.ObjectMeta i)
    ∧ length (requests w2) = 2.
Proof.
  intros i w.
  destruct (@EnsureFinalizer _ Fake.encoders (Some 1%positive) Fake.ingClient "F1" w)
    as [[[p e] w1]|] eqn:Hfirst; [|by vm_compute in Hfirst].
  assert (p = Some 2%positive ∧ e = None ∧ length (requests w1) = 1) as (-> & -> & Hlen).
  { vm_compute in Hfirst. by injection Hfirst as <- <- <-. }
  destruct (@ensure_present_then_absent_restores_new_token _ Fake.encoders Fake.ingClient
              Fake.kubeClient 1%positive 1%positive i (Fake.service None ["A"]) "F1" w
              eq_refl eq_refl ltac:(by_computation) ltac:(by_computation))
    as [Hing _].
  rewrite Hfirst in Hing.
  destruct (Hing (Some 2%positive) w1 eq_refl) as (r & w2 & Hsecond & _ & Hmeta & Hreq).
  exists w1, r, w2. split; [done|]. split; [exact Hsecond|]. split; [exact Hmeta|].
  rewrite Hreq by reflexivity. rewrite length_app, Hlen. reflexivity.
Defined.

(** C5 as stated fails when the token is already a finalizer: ensure-present
    sends nothing and returns a copy with the same list, ensure-absent on it
    removes the token, and the list patched in, [[]], has not the elements
    of the original one, [["F1"]]. *)
Lemma ensure_present_then_absent_drops_present_token :
  let i := Fake.ingress None ["F1"] in
  let w := Fake.world i (Fake.service None []) in
  ∃ w1 w2 m',
    @EnsureFinalizer _ Fake.encoders (Some 1%positive) Fake.ingClient "F1" w
    = Some ((Some 2%positive, None), w1)
    ∧ requests w1 = []
    ∧ @EnsureDeleteFinalizer _ Fake.encoders (Some 2%positive) Fake.ingClient "F1" w1
      = Some (None, w2)
    ∧ length (requests w2) = 1
    ∧ metas w2 !! 1%positive = Some m'
    ∧ meta_v1.Finalizers m' = []
    ∧ ¬ same_set (meta_v1.Finalizers m') (meta_v1.Finalizers (v1beta1.ObjectMeta i)).
Proof.
  intros i w. eexists _, _, _.
  split; [vm_compute; reflexivity|]. split; [reflexivity|].
  split; [vm_compute; reflexivity|]. split; [reflexivity|].
  split; [vm_compute; reflexivity|]. split; [reflexivity|].
  intros Hsame. destruct (Hsame "F1") as [_ Hback].
  apply (not_elem_of_nil "F1"). apply Hback. left.
Qed.

(** * Remarks on the edges of the contract *)

Section Remarks.
Context {Cluster : Type} `{!Encoders}.
Implicit Types (w : World Cluster) (ic : IngressInterface Cluster)
  (kc : kubernetes_Interface Cluster) (key : string).

(** When an encoder fails, ensure-present on an Ingress returns the wrapped
    error with a nil pointer and nothing reaches the store. *)
Lemma EnsureFinalizer_encoder_error ic (l : loc) (i : v1beta1.Ingress) key w err :
  ingresses w !! l = Some i →
  needToAddFinalizer (v1beta1.ObjectMeta i) key = true →
  (Ingress_diff i (Ingress_set_Finalizers
                     (append (meta_v1.Finalizers (v1beta1.ObjectMeta i)) key) i)).2
  = Some err →
  ∃ w', EnsureFinalizer (Some l) ic key w
        = Some ((None, Some (error_patching_Ingress
                               (meta_v1.Namespace (v1beta1.ObjectMeta i))
                               (meta_v1.Name (v1beta1.ObjectMeta i)) err)), w')
    ∧ requests w' = requests w ∧ cluster w' = cluster w.
Proof.
  intros Hl Hneed Herr.
  destruct (EnsureFinalizer_add_outcome ic l i key w Hl Hneed)
    as (r & w' & Hrun & _ & _ & _ & Hd).
  rewrite Herr in Hd. destruct Hd as (-> & ? & ?). by exists w'.
Qed.

(** The same on a Service: the error of [patchServiceFinalizer], and no
    request. *)
Lemma EnsureServiceFinalizer_encoder_error kc (l : loc) (s : corev1.Service) key w err :
  services w !! l = Some s →
  HasGivenFinalizer (corev1.ObjectMeta s) key = false →
  (Service_diff s (Service_set_Finalizers
                     (append (meta_v1.Finalizers (corev1.ObjectMeta s)) key) s)).2
  = Some err →
  ∃ w', EnsureServiceFinalizer (Some l) key kc w = Some (Some err, w')
    ∧ requests w' = requests w ∧ cluster w' = cluster w.
Proof.
  intros Hl Hhas Herr.
  rewrite (EnsureServiceFinalizer_add_run kc l s key w Hl Hhas).
  destruct (patchServiceFinalizer_copy_outcome kc l s
              (Service_set_Finalizers
                 (append (meta_v1.Finalizers (corev1.ObjectMeta s)) key) s) w Hl)
    as (r & w' & Hrun & _ & _ & Hd).
  rewrite Herr in Hd. destruct Hd as (-> & ? & ?). by exists w'.
Qed.

End Remarks.

(** Scenario 4 of the spec: nothing to remove, nothing sent. *)
Example EnsureDeleteFinalizer_scenario_4 :
  let w := Fake.world (Fake.ingress None []) (Fake.service None []) in
  @EnsureDeleteFinalizer _ Fake.encoders (Some 1%positive) Fake.ingClient "F1" w
  = Some (None, w).
Proof. reflexivity. Qed.

(** An object the encoder refuses: an error, and no request. *)
Example EnsureFinalizer_unencodable :
  let i := v1beta1.mkIngress (Fake.meta "web" None []) "unencodable" "" in
  let w := Fake.world i (Fake.service None []) in
  ∃ w', @EnsureFinalizer _ Fake.encoders (Some 1%positive) Fake.ingClient "F1" w
        = Some ((None, Some "error patching Ingress default/web: json: unsupported value"),
                w')
    ∧ requests w' = [].
Proof. intros i w. eexists. split; [vm_compute; reflexivity|]. reflexivity. Qed.

(** * Further properties of the package *)

(** ** Tokens other than the one at hand *)

Section OtherTokens.
Implicit Types (m : meta_v1.ObjectMeta) (key k : string).

Lemma HasGivenFinalizer_set m fs key :
  HasGivenFinalizer (meta_v1.set_Finalizers fs m) key = bool_decide (key ∈ fs).
Proof. apply HasGivenFinalizer_decide. Qed.

Lemma HasGivenFinalizer_append_other m key k :
  k ≠ key →
  HasGivenFinalizer (meta_v1.set_Finalizers (append (meta_v1.Finalizers m) key) m) k
  = HasGivenFinalizer m k.
Proof.
  intros Hne. rewrite HasGivenFinalizer_set, HasGivenFinalizer_decide.
  apply bool_decide_ext. unfold append. rewrite elem_of_app, list_elem_of_singleton.
  split; [intros [?|?]; [done|congruence]|by left].
Qed.

Lemma HasGivenFinalizer_remove_other m key k :
  k ≠ key →
  HasGivenFinalizer
    (meta_v1.set_Finalizers (slice.RemoveString (meta_v1.Finalizers m) key None) m) k
  = HasGivenFinalizer m k.
Proof.
  intros Hne. rewrite HasGivenFinalizer_set, HasGivenFinalizer_decide.
  apply bool_decide_ext. rewrite RemoveString_filter, list_elem_of_filter.
  split; [by intros [_ ?]|by split].
Qed.

Lemma HasGivenFinalizer_remove_same m key :
  HasGivenFinalizer
    (meta_v1.set_Finalizers (slice.RemoveString (meta_v1.Finalizers m) key None) m) key
  = false.
Proof. apply HasGivenFinalizer_false. simpl. apply RemoveString_removes. Qed.

Lemma RemoveString_NoDup (l : list string) key :
  NoDup l → NoDup (slice.RemoveString l key None).
Proof. rewrite RemoveString_filter. apply NoDup_filter. Qed.

Lemma append_NoDup (l : list string) key :
  key ∉ l → NoDup l → NoDup (append l key).
Proof.
  intros Hnot Hl. unfold append. apply NoDup_app. split; [done|].
  split; [|apply NoDup_singleton].
  intros x Hx Hx'. apply list_elem_of_singleton in Hx'. by subst.
Qed.
End OtherTokens.

(** ** Predicate layer *)

(** X1.  [IsDeletionCandidateForGivenFinalizer m key] holds exactly when the
    deletion timestamp is set and [key] is among the finalizers.  An object
    that needs a finalizer added is no deletion candidate, for any token and
    for the Ingress pair, and the other way round: the two predicates never
    hold together, whatever the two tokens. *)
Theorem needToAddFinalizer_excludes_deletion_candidate
    (m : meta_v1.ObjectMeta) (key key' : string) :
  (IsDeletionCandidateForGivenFinalizer m key = true
   ↔ meta_v1.DeletionTimestamp m ≠ None ∧ key ∈ meta_v1.Finalizers m)
  ∧ (needToAddFinalizer m key = true →
       IsDeletionCandidateForGivenFinalizer m key' = false
       ∧ IsDeletionCandidate m = false)
  ∧ (IsDeletionCandidateForGivenFinalizer m key' = true →
       needToAddFinalizer m key = false).
Proof.
  unfold IsDeletionCandidate, IsDeletionCandidateForGivenFinalizer, needToAddFinalizer.
  split; [|split].
  - rewrite andb_true_iff, HasGivenFinalizer_true.
    destruct (meta_v1.DeletionTimestamp m); simpl; intuition congruence.
  - destruct (meta_v1.DeletionTimestamp m); simpl; [discriminate|done].
  - destruct (meta_v1.DeletionTimestamp m); simpl; [done|discriminate].
Qed.

(** A live Ingress without finalizers needs one and is no candidate; the
    same Ingress, terminating and with the finalizer, is a candidate and
    needs nothing. *)
Lemma needToAddFinalizer_excludes_deletion_candidate_witness :
  let live := Fake.meta "web" None [] in
  let dying := Fake.meta "web" (Some 7%Z) [FinalizerKeyV2] in
  IsDeletionCandidate live = false
  ∧ needToAddFinalizer dying FinalizerKey = false
  ∧ meta_v1.DeletionTimestamp dying ≠ None.
Proof.
  intros live dying.
  pose proof (needToAddFinalizer_excludes_deletion_candidate live FinalizerKey FinalizerKeyV2)
    as (_ & Hlive & _).
  pose proof (needToAddFinalizer_excludes_deletion_candidate dying FinalizerKeyV2 FinalizerKeyV2)
    as (Hiff & _ & _).
  pose proof (needToAddFinalizer_excludes_deletion_candidate dying FinalizerKey FinalizerKeyV2)
    as (_ & _ & Hdying).
  split; [exact (proj2 (Hlive eq_refl))|].
  split; [exact (Hdying eq_refl)|].
  exact (proj1 (proj1 Hiff eq_refl)).
Defined.

(** X2.  [HasFinalizer] sees the two Ingress tokens and nothing else: it
    holds exactly when one of them is among the finalizers, and appending or
    removing any other token (a Service or NEG finalizer, say) does not
    change it. *)
Theorem HasFinalizer_only_ingress_tokens (m : meta_v1.ObjectMeta) (k : string) :
  (HasFinalizer m = true
   ↔ FinalizerKey ∈ meta_v1.Finalizers m ∨ FinalizerKeyV2 ∈ meta_v1.Finalizers m)
  ∧ (k ≠ FinalizerKey → k ≠ FinalizerKeyV2 →
       HasFinalizer (meta_v1.set_Finalizers (append (meta_v1.Finalizers m) k) m)
       = HasFinalizer m
       ∧ HasFinalizer
           (meta_v1.set_Finalizers (slice.RemoveString (meta_v1.Finalizers m) k None) m)
         = HasFinalizer m).
Proof.
  unfold HasFinalizer. split.
  - by rewrite orb_true_iff, !HasGivenFinalizer_true.
  - intros H1 H2. split.
    + by rewrite !HasGivenFinalizer_append_other by done.
    + by rewrite !HasGivenFinalizer_remove_other by done.
Qed.

(** The NEG and the two ILB finalizers are such other tokens. *)
Lemma HasFinalizer_only_ingress_tokens_witness :
  let m := Fake.meta "web" None [ILBFinalizerV2; FinalizerKeyV2; NegFinalizerKey] in
  HasFinalizer (meta_v1.set_Finalizers (append (meta_v1.Finalizers m) LegacyILBFinalizer) m)
  = true
  ∧ HasFinalizer
      (meta_v1.set_Finalizers (slice.RemoveString (meta_v1.Finalizers m) NegFinalizerKey None) m)
    = true
  ∧ HasFinalizer (Fake.meta "db" None [ILBFinalizerV2; NegFinalizerKey; LegacyILBFinalizer])
    = false.
Proof.
  intros m.
  destruct (HasFinalizer_only_ingress_tokens m LegacyILBFinalizer) as [_ Hilb].
  destruct (HasFinalizer_only_ingress_tokens m NegFinalizerKey) as [_ Hneg].
  split; [|split; [|reflexivity]].
  - rewrite (proj1 (Hilb ltac:(discriminate) ltac:(discriminate))). reflexivity.
  - rewrite (proj2 (Hneg ltac:(discriminate) ltac:(discriminate))). reflexivity.
Defined.

(** ** Ingress operations *)

Section MoreIngress.
Context {Cluster : Type} `{!Encoders}.
Implicit Types (w : World Cluster) (ic : IngressInterface Cluster) (key : string).

(** X3.  Removing one of the two Ingress tokens leaves the other one in
    charge: the metadata [EnsureDeleteFinalizer] builds and patches in has an
    Ingress finalizer exactly when the original carried the other token, and
    is a deletion candidate exactly when the original was one for the other
    token. *)
Theorem EnsureDeleteFinalizer_leaves_other_ingress_token ic (l : loc)
    (i : v1beta1.Ingress) key (other : string) w :
  ingresses w !! l = Some i →
  key ∈ meta_v1.Finalizers (v1beta1.ObjectMeta i) →
  (key = FinalizerKey ∧ other = FinalizerKeyV2)
  ∨ (key = FinalizerKeyV2 ∧ other = FinalizerKey) →
  ∃ r w' m', EnsureDeleteFinalizer (Some l) ic key w = Some (r, w')
    ∧ metas w' !! (fresh (dom (metas w))) = Some m'
    ∧ HasFinalizer m' = HasGivenFinalizer (v1beta1.ObjectMeta i) other
    ∧ IsDeletionCandidate m'
      = IsDeletionCandidateForGivenFinalizer (v1beta1.ObjectMeta i) other.
Proof.
  intros Hl Hin Hkeys. apply HasGivenFinalizer_true in Hin.
  destruct (EnsureDeleteFinalizer_remove_outcome ic l i key w Hl Hin)
    as (r & w' & Hrun & _ & _ & Hcopy & _).
  eexists r, w', _. split; [exact Hrun|]. split; [exact Hcopy|].
  unfold IsDeletionCandidate, IsDeletionCandidateForGivenFinalizer, HasFinalizer.
  destruct Hkeys as [[-> ->]|[-> ->]].
  - rewrite HasGivenFinalizer_remove_same.
    rewrite HasGivenFinalizer_remove_other by discriminate.
    simpl. by rewrite andb_false_r.
  - rewrite HasGivenFinalizer_remove_same.
    rewrite HasGivenFinalizer_remove_other by discriminate.
    simpl. by rewrite andb_false_r, !orb_false_r.
Qed.

(** X4.  What a successful [EnsureFinalizer] returns: an object that carries
    the token unless the Ingress is terminating, that never needs the token
    added again, in which every other token is present exactly as in the
    input, and whose name, namespace, deletion timestamp, spec, status and
    deletion-candidate status are those of the input. *)
Theorem EnsureFinalizer_result_carries_token ic (l : loc) (i : v1beta1.Ingress)
    key w (p : ptr) w' :
  ingresses w !! l = Some i →
  EnsureFinalizer (Some l) ic key w = Some ((p, None), w') →
  let m := v1beta1.ObjectMeta i in
  ∃ c, load_Ingress p w' = Some (c, w')
    ∧ HasGivenFinalizer (v1beta1.ObjectMeta c) key
      = negb (not_nil (meta_v1.DeletionTimestamp m)) || HasGivenFinalizer m key
    ∧ needToAddFinalizer (v1beta1.ObjectMeta c) key = false
    ∧ (∀ k, k ≠ key →
         HasGivenFinalizer (v1beta1.ObjectMeta c) k = HasGivenFinalizer m k)
    ∧ IsDeletionCandidate (v1beta1.ObjectMeta c) = IsDeletionCandidate m
    ∧ meta_v1.set_Finalizers (meta_v1.Finalizers m) (v1beta1.ObjectMeta c) = m
    ∧ v1beta1.Spec c = v1beta1.Spec i
    ∧ v1beta1.Status c = v1beta1.Status i.
Proof.
  intros Hl Hrun m.
  destruct (needToAddFinalizer m key) eqn:Hneed.
  - destruct (EnsureFinalizer_add_outcome ic l i key w Hl Hneed)
      as (r & w0 & Hrun' & (pr & _ & Hr) & _ & Hu & _).
    rewrite Hrun in Hrun'. injection Hrun' as <- <-.
    assert (p = Some (fresh (dom (ingresses w)))) as ->.
    { destruct (pr.2); by injection Hr. }
    eexists. split; [by simpl; rewrite Hu|]. fold m.
    pose proof Hneed as Hneed'.
    unfold needToAddFinalizer in Hneed'. apply andb_true_iff in Hneed' as [Hdt Hhas].
    apply negb_true_iff in Hhas.
    split. { change (v1beta1.ObjectMeta (Ingress_set_Finalizers _ i))
               with (meta_v1.set_Finalizers (append (meta_v1.Finalizers m) key) m).
             by rewrite HasGivenFinalizer_append, Hdt. }
    split. { apply needToAddFinalizer_false. intros [_ Hnot]. apply Hnot.
             apply HasGivenFinalizer_true, HasGivenFinalizer_append. }
    split. { intros k Hk. by apply HasGivenFinalizer_append_other. }
    split. { unfold IsDeletionCandidate, IsDeletionCandidateForGivenFinalizer.
             simpl. apply negb_true_iff in Hdt. fold m. by rewrite Hdt. }
    split; [|done]. simpl. fold m. by destruct m.
  - rewrite (EnsureFinalizer_noop_run ic l i key w Hl Hneed) in Hrun.
    injection Hrun as <- <-.
    exists i. split; [by simpl; rewrite lookup_insert_eq|]. fold m.
    split. { unfold needToAddFinalizer in Hneed.
             destruct (not_nil (meta_v1.DeletionTimestamp m)),
               (HasGivenFinalizer m key); done. }
    split; [done|]. split; [done|]. split; [done|].
    split; [|done]. by destruct m.
Qed.
End MoreIngress.

(** An Ingress with the v1 and the v2 token loses the v1 token and still has
    an Ingress finalizer. *)
Lemma EnsureDeleteFinalizer_leaves_other_ingress_token_witness :
  let i := Fake.ingress (Some 3%Z) [FinalizerKey; FinalizerKeyV2] in
  let w := Fake.world i (Fake.service None []) in
  ∃ r w' m',
    @EnsureDeleteFinalizer _ Fake.encoders (Some 1%positive) Fake.ingClient FinalizerKey w
    = Some (r, w')
    ∧ metas w' !! 1%positive = Some m'
    ∧ IsDeletionCandidate m' = true.
Proof.
  intros i w.
  destruct (@EnsureDeleteFinalizer_leaves_other_ingress_token _ Fake.encoders Fake.ingClient
              1%positive i FinalizerKey FinalizerKeyV2 w eq_refl
              ltac:(by_computation) ltac:(by left))
    as (r & w' & m' & Hrun & Hcopy & _ & Hcand).
  exists r, w', m'. split; [exact Hrun|]. split; [exact Hcopy|].
  rewrite Hcand. reflexivity.
Defined.

(** Scenario 1 of the spec, seen through the predicates. *)
Lemma EnsureFinalizer_result_carries_token_witness :
  let i := Fake.ingress None ["other"] in
  let w := Fake.world i (Fake.service None []) in
  ∃ p w' c,
    @EnsureFinalizer _ Fake.encoders (Some 1%positive) Fake.ingClient FinalizerKey w
    = Some ((p, None), w')
    ∧ @load_Ingress Fake.Cluster p w' = Some (c, w')
    ∧ HasFinalizer (v1beta1.ObjectMeta c) = true
    ∧ HasGivenFinalizer (v1beta1.ObjectMeta c) "other" = true.
Proof.
  intros i w.
  destruct (@EnsureFinalizer _ Fake.encoders (Some 1%positive) Fake.ingClient FinalizerKey w)
    as [[[p e] w']|] eqn:Hrun; [|by vm_compute in Hrun].
  assert (e = None) as ->.
  { vm_compute in Hrun. by injection Hrun as _ <- _. }
  destruct (@EnsureFinalizer_result_carries_token _ Fake.encoders Fake.ingClient
              1%positive i FinalizerKey w p w' eq_refl Hrun)
    as (c & Hload & Hhas & _ & Hother & _).
  exists p, w', c. split; [done|]. split; [exact Hload|].
  unfold HasFinalizer. rewrite Hhas. split; [reflexivity|].
  rewrite (Hother "other") by discriminate. reflexivity.
Defined.

Section MoreIngressErrors.
Context {Cluster : Type} `{!Encoders}.
Implicit Types (w : World Cluster) (ic : IngressInterface Cluster) (key : string).

(** X9.  [EnsureDeleteFinalizer] with the token present: the metadata without
    the token goes through [PatchIngressObjectMetadata] once, and the result
    is nil exactly when that call returned no error; an error it returned
    comes back as "error patching Ingress <namespace>/<name>: <error>". *)
Theorem EnsureDeleteFinalizer_wraps_patch_error ic (l : loc) (i : v1beta1.Ingress) key w :
  ingresses w !! l = Some i →
  key ∈ meta_v1.Finalizers (v1beta1.ObjectMeta i) →
  let m := v1beta1.ObjectMeta i in
  let m' := meta_v1.set_Finalizers (slice.RemoveString (meta_v1.Finalizers m) key None) m in
  ∃ r w' pr,
    EnsureDeleteFinalizer (Some l) ic key w = Some (r, w')
    ∧ PatchIngressObjectMetadata ic (Some l) m'
        (set_metas (<[fresh (dom (metas w)) := m']> (metas w)) w) = Some (pr, w')
    ∧ (r = None ↔ pr.2 = None)
    ∧ (∀ e, pr.2 = Some e →
         r = Some ("error patching Ingress " +:+ meta_v1.Namespace m +:+ "/"
                   +:+ meta_v1.Name m +:+ ": " +:+ e)).
Proof.
  intros Hl Hin m m'. apply HasGivenFinalizer_true in Hin.
  destruct (EnsureDeleteFinalizer_remove_outcome ic l i key w Hl Hin)
    as (r & w' & Hrun & (pr & Hdel & Hr) & _).
  exists r, w', pr. split; [exact Hrun|]. split; [exact Hdel|].
  subst r. destruct (pr.2) as [e|]; simpl.
  - split; [done|]. by intros e' [= <-].
  - done.
Qed.
End MoreIngressErrors.

(** The store does not know the Ingress. *)
Lemma EnsureDeleteFinalizer_wraps_patch_error_witness :
  let i := v1beta1.mkIngress (Fake.meta "gone" None ["F1"]) "rules" "" in
  let w := Fake.world i (Fake.service None []) in
  ∃ w', @EnsureDeleteFinalizer _ Fake.encoders (Some 1%positive) Fake.ingClient "F1" w
        = Some (Some "error patching Ingress default/gone: ingresses gone not found", w').
Proof.
  intros i w.
  destruct (@EnsureDeleteFinalizer_wraps_patch_error _ Fake.encoders Fake.ingClient
              1%positive i "F1" w eq_refl ltac:(by_computation))
    as (r & w' & pr & Hrun & Hdel & _ & Hwrap).
  exists w'. rewrite Hrun. f_equal. f_equal.
  apply Hwrap. vm_compute in Hdel. by injection Hdel as <- _.
Defined.

(** ** All four operations *)

Section AllOperations.
Context {Cluster : Type} `{!Encoders}.
Implicit Types (w : World Cluster) (ic : IngressInterface Cluster)
  (kc : kubernetes_Interface Cluster) (key : string).

(** X5.  Finalizer lists without duplicates stay so: when the input's
    finalizers are pairwise distinct, so are those of the object each
    operation builds (the copy [EnsureFinalizer] returns, the metadata or the
    Service copy the other three patch in). *)
Theorem operations_keep_finalizers_distinct ic kc (li ls : loc)
    (i : v1beta1.Ingress) (s : corev1.Service) key w :
  ingresses w !! li = Some i →
  services w !! ls = Some s →
  NoDup (meta_v1.Finalizers (v1beta1.ObjectMeta i)) →
  NoDup (meta_v1.Finalizers (corev1.ObjectMeta s)) →
  (∀ p w', EnsureFinalizer (Some li) ic key w = Some ((p, None), w') →
     ∃ c, load_Ingress p w' = Some (c, w')
          ∧ NoDup (meta_v1.Finalizers (v1beta1.ObjectMeta c)))
  ∧ (key ∈ meta_v1.Finalizers (v1beta1.ObjectMeta i) →
     ∃ r w' m', EnsureDeleteFinalizer (Some li) ic key w = Some (r, w')
       ∧ metas w' !! (fresh (dom (metas w))) = Some m'
       ∧ NoDup (meta_v1.Finalizers m'))
  ∧ (key ∉ meta_v1.Finalizers (corev1.ObjectMeta s) →
     ∃ r w' s', EnsureServiceFinalizer (Some ls) key kc w = Some (r, w')
       ∧ services w' !! (fresh (dom (services w))) = Some s'
       ∧ NoDup (meta_v1.Finalizers (corev1.ObjectMeta s')))
  ∧ (key ∈ meta_v1.Finalizers (corev1.ObjectMeta s) →
     ∃ r w' s', EnsureDeleteServiceFinalizer (Some ls) key kc w = Some (r, w')
       ∧ services w' !! (fresh (dom (services w))) = Some s'
       ∧ NoDup (meta_v1.Finalizers (corev1.ObjectMeta s'))).
Proof.
  intros Hi Hs Hnd_i Hnd_s. repeat split.
  - intros p w' Hrun.
    destruct (needToAddFinalizer (v1beta1.ObjectMeta i) key) eqn:Hneed.
    + destruct (EnsureFinalizer_add_outcome ic li i key w Hi Hneed)
        as (r & w0 & Hrun' & (pr & _ & Hr) & _ & Hu & _).
      rewrite Hrun in Hrun'. injection Hrun' as <- <-.
      assert (p = Some (fresh (dom (ingresses w)))) as ->.
      { destruct (pr.2); by injection Hr. }
      eexists. split; [by simpl; rewrite Hu|]. simpl.
      apply needToAddFinalizer_true in Hneed as [_ Hnot]. by apply append_NoDup.
    + rewrite (EnsureFinalizer_noop_run ic li i key w Hi Hneed) in Hrun.
      injection Hrun as <- <-.
      exists i. split; [by simpl; rewrite lookup_insert_eq|done].
  - intros Hin. apply HasGivenFinalizer_true in Hin.
    destruct (EnsureDeleteFinalizer_remove_outcome ic li i key w Hi Hin)
      as (r & w' & Hrun & _ & _ & Hcopy & _).
    eexists r, w', _. split; [exact Hrun|]. split; [exact Hcopy|].
    simpl. by apply RemoveString_NoDup.
  - intros Hnot. pose proof Hnot as Hhas. apply HasGivenFinalizer_false in Hhas.
    rewrite (EnsureServiceFinalizer_add_run kc ls s key w Hs Hhas).
    destruct (patchServiceFinalizer_copy_outcome kc ls s
                (Service_set_Finalizers
                   (append (meta_v1.Finalizers (corev1.ObjectMeta s)) key) s) w Hs)
      as (r & w' & Hrun & _ & Hcopy & _).
    eexists r, w', _. split; [exact Hrun|]. split; [exact Hcopy|].
    simpl. by apply append_NoDup.
  - intros Hin. apply HasGivenFinalizer_true in Hin.
    rewrite (EnsureDeleteServiceFinalizer_remove_run kc ls s key w Hs Hin).
    destruct (patchServiceFinalizer_copy_outcome kc ls s
                (Service_set_Finalizers
                   (slice.RemoveString (meta_v1.Finalizers (corev1.ObjectMeta s)) key None)
                   s) w Hs)
      as (r & w' & Hrun & _ & Hcopy & _).
    eexists r, w', _. split; [exact Hrun|]. split; [exact Hcopy|].
    simpl. by apply RemoveString_NoDup.
Qed.

(** X6.  Ensure-absent is idempotent.  Whatever the first call did, on every
    snapshot that shows the finalizers it left or asked for (the input's
    without the token) a second call with the same token returns nil and
    changes nothing: no request, no allocation. *)
Theorem ensure_absent_idempotent ic kc (li ls : loc)
    (i : v1beta1.Ingress) (s : corev1.Service) key w :
  ingresses w !! li = Some i →
  services w !! ls = Some s →
  (∃ r w1, EnsureDeleteFinalizer (Some li) ic key w = Some (r, w1)
     ∧ ∀ p1 i1, ingresses w1 !! p1 = Some i1 →
         meta_v1.Finalizers (v1beta1.ObjectMeta i1)
         = slice.RemoveString (meta_v1.Finalizers (v1beta1.ObjectMeta i)) key None →
         EnsureDeleteFinalizer (Some p1) ic key w1 = Some (None, w1))
  ∧ (∃ r w1, EnsureDeleteServiceFinalizer (Some ls) key kc w = Some (r, w1)
       ∧ (∃ p1 s1, services w1 !! p1 = Some s1
            ∧ meta_v1.Finalizers (corev1.ObjectMeta s1)
              = slice.RemoveString (meta_v1.Finalizers (corev1.ObjectMeta s)) key None)
       ∧ ∀ p1 s1, services w1 !! p1 = Some s1 →
           meta_v1.Finalizers (corev1.ObjectMeta s1)
           = slice.RemoveString (meta_v1.Finalizers (corev1.ObjectMeta s)) key None →
           EnsureDeleteServiceFinalizer (Some p1) key kc w1 = Some (None, w1)).
Proof.
  intros Hi Hs. split.
  - assert (∃ r w1, EnsureDeleteFinalizer (Some li) ic key w = Some (r, w1))
      as (r & w1 & Hrun).
    { destruct (HasGivenFinalizer (v1beta1.ObjectMeta i) key) eqn:Hhas.
      - destruct (EnsureDeleteFinalizer_remove_outcome ic li i key w Hi Hhas)
          as (r & w1 & Hrun & _). by exists r, w1.
      - rewrite (EnsureDeleteFinalizer_noop_run ic li i key w Hi Hhas). by eexists _, _. }
    exists r, w1. split; [exact Hrun|].
    intros p1 i1 Hp1 Hfs. apply EnsureDeleteFinalizer_noop_run with i1; [done|].
    apply HasGivenFinalizer_false. rewrite Hfs. apply RemoveString_removes.
  - assert (Hnoop : ∀ w1 p1 s1, services w1 !! p1 = Some s1 →
              meta_v1.Finalizers (corev1.ObjectMeta s1)
              = slice.RemoveString (meta_v1.Finalizers (corev1.ObjectMeta s)) key None →
              EnsureDeleteServiceFinalizer (Some p1) key kc w1 = Some (None, w1)).
    { intros w1 p1 s1 Hp1 Hfs.
      apply EnsureDeleteServiceFinalizer_noop_run with s1; [done|].
      apply HasGivenFinalizer_false. rewrite Hfs. apply RemoveString_removes. }
    destruct (HasGivenFinalizer (corev1.ObjectMeta s) key) eqn:Hhas.
    + rewrite (EnsureDeleteServiceFinalizer_remove_run kc ls s key w Hs Hhas).
      destruct (patchServiceFinalizer_copy_outcome kc ls s
                  (Service_set_Finalizers
                     (slice.RemoveString (meta_v1.Finalizers (corev1.ObjectMeta s)) key None)
                     s) w Hs)
        as (r & w1 & Hrun & _ & Hcopy & _).
      exists r, w1. split; [exact Hrun|]. split; [by eexists _, _|]. apply Hnoop.
    + rewrite (EnsureDeleteServiceFinalizer_noop_run kc ls s key w Hs Hhas).
      eexists _, _. split; [reflexivity|]. split; [|apply Hnoop].
      exists ls, s. split; [done|]. symmetry. apply RemoveString_not_elem.
      by apply HasGivenFinalizer_false.
Qed.

End AllOperations.

(** Distinct finalizers on both objects, before and after. *)
Lemma operations_keep_finalizers_distinct_witness :
  let i := Fake.ingress None ["A"; "B"] in
  let s := Fake.service None ["A"; "B"] in
  let w := Fake.world i s in
  (∃ r w' m', @EnsureDeleteFinalizer _ Fake.encoders (Some 1%positive) Fake.ingClient "A" w
              = Some (r, w')
     ∧ metas w' !! 1%positive = Some m' ∧ NoDup (meta_v1.Finalizers m'))
  ∧ (∃ r w' s', @EnsureDeleteServiceFinalizer _ Fake.encoders (Some 1%positive) "A"
                  Fake.kubeClient w = Some (r, w')
       ∧ services w' !! 2%positive = Some s'
       ∧ NoDup (meta_v1.Finalizers (corev1.ObjectMeta s'))).
Proof.
  intros i s w.
  assert (Hnd : NoDup ["A"; "B"]) by by_computation.
  destruct (@operations_keep_finalizers_distinct _ Fake.encoders Fake.ingClient
              Fake.kubeClient 1%positive 1%positive i s "A" w eq_refl eq_refl Hnd Hnd)
    as (_ & Hdel & _ & Hsdel).
  split; [apply Hdel|apply Hsdel]; by_computation.
Defined.

(** Scenario 3 of the spec on a Service, then once more on the copy. *)
Lemma ensure_absent_idempotent_witness :
  let s := Fake.service None ["F1"; "F2"] in
  let w := Fake.world (Fake.ingress None []) s in
  ∃ r w1,
    @EnsureDeleteServiceFinalizer _ Fake.encoders (Some 1%positive) "F1" Fake.kubeClient w
    = Some (r, w1)
    ∧ @EnsureDeleteServiceFinalizer _ Fake.encoders (Some 2%positive) "F1" Fake.kubeClient w1
      = Some (None, w1).
Proof.
  intros s w.
  destruct (@ensure_absent_idempotent _ Fake.encoders Fake.ingClient Fake.kubeClient
              1%positive 1%positive (Fake.ingress None []) s "F1" w eq_refl eq_refl)
    as [_ (r & w1 & Hrun & _ & Hagain)].
  exists r, w1. split; [exact Hrun|].
  assert (Hcopy : services w1 !! 2%positive = Some (Fake.service None ["F2"])).
  { vm_compute in Hrun. injection Hrun as _ <-. reflexivity. }
  by apply (Hagain 2%positive _ Hcopy).
Defined.

(** ** Service operations *)

Section MoreService.
Context {Cluster : Type} `{!Encoders}.
Implicit Types (w : World Cluster) (sc : ServiceInterface Cluster)
  (kc : kubernetes_Interface Cluster) (key : string).

(** X7.  The four ways [patchServiceFinalizer] ends.  If the old service
    cannot be encoded, the error says so, whatever the new one is; else if
    the new one cannot be encoded, or else if the patch cannot be computed,
    the error says that; in the three cases the message names the old
    service as "<namespace>/<name>" and the world is untouched.  Otherwise
    exactly one request is sent, a strategic merge patch under the old
    service's name with the sub-resource ["status"], and the result is the
    store's error as it is (nil when the store accepts). *)
Theorem patchServiceFinalizer_outcomes sc (lo ln : loc) (o n : corev1.Service) w :
  services w !! lo = Some o →
  services w !! ln = Some n →
  let svcKey := meta_v1.Namespace (corev1.ObjectMeta o) +:+ "/"
                +:+ meta_v1.Name (corev1.ObjectMeta o) in
  let od := json_Marshal_Service o in
  let nd := json_Marshal_Service n in
  let pb := CreateTwoWayMergePatch od.1 nd.1 Schema_Service in
  (∀ e, od.2 = Some e →
     patchServiceFinalizer sc (Some lo) (Some ln) w
     = Some (Some ("failed to Marshal oldData for service " +:+ svcKey +:+ ": " +:+ e), w))
  ∧ (∀ e, od.2 = None → nd.2 = Some e →
       patchServiceFinalizer sc (Some lo) (Some ln) w
       = Some (Some ("failed to Marshal newData for service " +:+ svcKey +:+ ": " +:+ e), w))
  ∧ (∀ e, od.2 = None → nd.2 = None → pb.2 = Some e →
       patchServiceFinalizer sc (Some lo) (Some ln) w
       = Some (Some ("failed to create TwoWayMergePatch for service "
                     +:+ svcKey +:+ ": " +:+ e), w))
  ∧ (od.2 = None → nd.2 = None → pb.2 = None →
       let a := Service_Patch sc (meta_v1.Name (corev1.ObjectMeta o))
                  types.StrategicMergePatchType pb.1 meta_v1.PatchOptions_zero
                  ["status"] (cluster w) in
       ∃ w', patchServiceFinalizer sc (Some lo) (Some ln) w = Some (a.1.2, w')
         ∧ cluster w' = a.2
         ∧ requests w' = requests w
             ++ [mkPatchRequest Schema_Service (meta_v1.Name (corev1.ObjectMeta o))
                   types.StrategicMergePatchType pb.1 ["status"]]).
Proof.
  intros Ho Hn svcKey od nd pb.
  destruct (patchServiceFinalizer_run sc lo ln o n w Ho Hn)
    as (r & w' & Hrun & _ & Hd).
  rewrite Hrun. unfold Service_diff in Hd. fold od nd in Hd.
  repeat split.
  - intros e He. rewrite He in Hd. by destruct Hd as [-> ->].
  - intros e Ho2 He. rewrite Ho2, He in Hd. by destruct Hd as [-> ->].
  - intros e Ho2 Hn2 He. rewrite Ho2, Hn2 in Hd. fold pb in Hd. rewrite He in Hd.
    by destruct Hd as [-> ->].
  - intros Ho2 Hn2 Hp2 a. rewrite Ho2, Hn2 in Hd. fold pb in Hd. rewrite Hp2 in Hd.
    simpl in Hd. rewrite Hp2 in Hd. destruct Hd as (-> & Hc & Hreq).
    exists w'. done.
Qed.

(** When the encoders produce the patch for [s] and its copy [s'], this is
    what [Service_diff] yields. *)
Lemma Service_diff_encoded (s s' : corev1.Service) (od nd pb : Bytes) :
  json_Marshal_Service s = (od, None) →
  json_Marshal_Service s' = (nd, None) →
  CreateTwoWayMergePatch od nd Schema_Service = (pb, None) →
  Service_diff s s' = (pb, None).
Proof.
  intros Ho Hn Hp. unfold Service_diff. rewrite Ho. simpl. rewrite Hn. simpl.
  by rewrite Hp.
Qed.

(** X8.  The two Service operations hand the caller the store's verdict as
    it is.  When the token has to be added (or removed) and the encoders
    produce the patch, the patch is sent through the client of the service's
    own namespace under the service's name, the operation returns exactly the
    error that [Patch] call answered, nil if none and never wrapped, and the
    store is in the state that call left. *)
Theorem service_operations_return_store_answer kc (l : loc) (s : corev1.Service) key w
    (fs : list string) (od nd pb : Bytes) :
  services w !! l = Some s →
  let m := corev1.ObjectMeta s in
  json_Marshal_Service s = (od, None) →
  json_Marshal_Service (Service_set_Finalizers fs s) = (nd, None) →
  CreateTwoWayMergePatch od nd Schema_Service = (pb, None) →
  let a := Service_Patch (Services (CoreV1 kc) (meta_v1.Namespace m)) (meta_v1.Name m)
             types.StrategicMergePatchType pb meta_v1.PatchOptions_zero ["status"]
             (cluster w) in
  (key ∉ meta_v1.Finalizers m → fs = append (meta_v1.Finalizers m) key →
     ∃ w', EnsureServiceFinalizer (Some l) key kc w = Some (a.1.2, w')
           ∧ cluster w' = a.2)
  ∧ (key ∈ meta_v1.Finalizers m → fs = slice.RemoveString (meta_v1.Finalizers m) key None →
       ∃ w', EnsureDeleteServiceFinalizer (Some l) key kc w = Some (a.1.2, w')
             ∧ cluster w' = a.2).
Proof.
  intros Hl m Ho Hn Hp a.
  pose proof (Service_diff_encoded s _ od nd pb Ho Hn Hp) as Hd.
  destruct (patchServiceFinalizer_copy_outcome kc l s (Service_set_Finalizers fs s) w Hl)
    as (r & w' & Hrun & _ & _ & Hout).
  rewrite Hd in Hout. simpl in Hout. destruct Hout as (-> & _ & Hc).
  split.
  - intros Hnot ->. apply HasGivenFinalizer_false in Hnot.
    rewrite (EnsureServiceFinalizer_add_run kc l s key w Hl Hnot). by exists w'.
  - intros Hin ->. apply HasGivenFinalizer_true in Hin.
    rewrite (EnsureDeleteServiceFinalizer_remove_run kc l s key w Hl Hin). by exists w'.
Qed.

(** X11.  The operations read the object they are given, not the store.
    Calling [EnsureServiceFinalizer] again on the same, unrefreshed object
    sends the same patch a second time, whatever the store answered to the
    first one: two equal requests, and the object still as it was. *)
Theorem EnsureServiceFinalizer_repeats_on_unrefreshed_object kc (l : loc)
    (s : corev1.Service) key w (od nd pb : Bytes) :
  services w !! l = Some s →
  key ∉ meta_v1.Finalizers (corev1.ObjectMeta s) →
  json_Marshal_Service s = (od, None) →
  json_Marshal_Service
    (Service_set_Finalizers (append (meta_v1.Finalizers (corev1.ObjectMeta s)) key) s)
  = (nd, None) →
  CreateTwoWayMergePatch od nd Schema_Service = (pb, None) →
  ∃ r1 w1 r2 w2,
    EnsureServiceFinalizer (Some l) key kc w = Some (r1, w1)
    ∧ EnsureServiceFinalizer (Some l) key kc w1 = Some (r2, w2)
    ∧ requests w2 = requests w ++ [Service_request s pb; Service_request s pb]
    ∧ services w2 !! l = Some s.
Proof.
  intros Hl Hnot Ho Hn Hp.
  pose proof (Service_diff_encoded s _ od nd pb Ho Hn Hp) as Hd.
  apply HasGivenFinalizer_false in Hnot.
  destruct (patchServiceFinalizer_copy_outcome kc l s
              (Service_set_Finalizers
                 (append (meta_v1.Finalizers (corev1.ObjectMeta s)) key) s) w Hl)
    as (r1 & w1 & Hrun1 & (_ & Hsub1 & _) & _ & Hout1).
  rewrite Hd in Hout1. simpl in Hout1. destruct Hout1 as (_ & Hreq1 & _).
  assert (Hl1 : services w1 !! l = Some s) by by eapply lookup_weaken.
  destruct (patchServiceFinalizer_copy_outcome kc l s
              (Service_set_Finalizers
                 (append (meta_v1.Finalizers (corev1.ObjectMeta s)) key) s) w1 Hl1)
    as (r2 & w2 & Hrun2 & (_ & Hsub2 & _) & _ & Hout2).
  rewrite Hd in Hout2. simpl in Hout2. destruct Hout2 as (_ & Hreq2 & _).
  exists r1, w1, r2, w2.
  split; [by rewrite (EnsureServiceFinalizer_add_run kc l s key w Hl Hnot)|].
  split; [by rewrite (EnsureServiceFinalizer_add_run kc l s key w1 Hl1 Hnot)|].
  split; [by rewrite Hreq2, Hreq1, <- app_assoc|].
  by eapply lookup_weaken.
Qed.

(** X12.  A Service operation touches its own token only.  In the copy it
    builds and patches in, the token is present after [EnsureServiceFinalizer]
    and absent after [EnsureDeleteServiceFinalizer]; every other token is
    present exactly as in the input; and the name, the namespace, the
    deletion timestamp, the spec and the status are the input's. *)
Theorem service_operations_touch_only_their_token kc (l : loc) (s : corev1.Service) key w :
  services w !! l = Some s →
  let m := corev1.ObjectMeta s in
  let kept (s' : corev1.Service) :=
    (∀ k, k ≠ key → HasGivenFinalizer (corev1.ObjectMeta s') k = HasGivenFinalizer m k)
    ∧ meta_v1.set_Finalizers (meta_v1.Finalizers m) (corev1.ObjectMeta s') = m
    ∧ corev1.Spec s' = corev1.Spec s
    ∧ corev1.Status s' = corev1.Status s in
  (key ∉ meta_v1.Finalizers m →
     ∃ r w' s', EnsureServiceFinalizer (Some l) key kc w = Some (r, w')
       ∧ services w' !! (fresh (dom (services w))) = Some s'
       ∧ HasGivenFinalizer (corev1.ObjectMeta s') key = true
       ∧ kept s')
  ∧ (key ∈ meta_v1.Finalizers m →
     ∃ r w' s', EnsureDeleteServiceFinalizer (Some l) key kc w = Some (r, w')
       ∧ services w' !! (fresh (dom (services w))) = Some s'
       ∧ HasGivenFinalizer (corev1.ObjectMeta s') key = false
       ∧ kept s').
Proof.
  intros Hl m kept. split.
  - intros Hnot. apply HasGivenFinalizer_false in Hnot.
    rewrite (EnsureServiceFinalizer_add_run kc l s key w Hl Hnot).
    destruct (patchServiceFinalizer_copy_outcome kc l s
                (Service_set_Finalizers (append (meta_v1.Finalizers m) key) s) w Hl)
      as (r & w' & Hrun & _ & Hcopy & _).
    eexists r, w', _. split; [exact Hrun|]. split; [exact Hcopy|].
    split; [apply HasGivenFinalizer_append|].
    split; [intros k Hk; by apply HasGivenFinalizer_append_other|].
    split; [|done]. simpl. fold m. by destruct m.
  - intros Hin. apply HasGivenFinalizer_true in Hin.
    rewrite (EnsureDeleteServiceFinalizer_remove_run kc l s key w Hl Hin).
    destruct (patchServiceFinalizer_copy_outcome kc l s
                (Service_set_Finalizers
                   (slice.RemoveString (meta_v1.Finalizers m) key None) s) w Hl)
      as (r & w' & Hrun & _ & Hcopy & _).
    eexists r, w', _. split; [exact Hrun|]. split; [exact Hcopy|].
    split; [apply HasGivenFinalizer_remove_same|].
    split; [intros k Hk; by apply HasGivenFinalizer_remove_other|].
    split; [|done]. simpl. fold m. by destruct m.
Qed.
End MoreService.

(** Two services on the heap, the old one at 1 and the new one at 2; an
    unencodable one makes the first or the second encoding fail. *)
Lemma patchServiceFinalizer_outcomes_witness :
  let good := Fake.service None ["A"] in
  let good' := Fake.service None ["A"; "B"] in
  let bad := corev1.mkService (Fake.meta "db" None ["A"; "B"]) "unencodable" "" in
  let sc := Services (CoreV1 Fake.kubeClient) "default" in
  let w (o n : corev1.Service) : World Fake.Cluster :=
    mkWorld ∅ {[ 1%positive := o; 2%positive := n ]} ∅ ["db"] [] in
  @patchServiceFinalizer _ Fake.encoders sc (Some 1%positive) (Some 2%positive) (w bad bad)
  = Some (Some "failed to Marshal oldData for service default/db: json: unsupported value",
          w bad bad)
  ∧ @patchServiceFinalizer _ Fake.encoders sc (Some 1%positive) (Some 2%positive) (w good bad)
    = Some (Some "failed to Marshal newData for service default/db: json: unsupported value",
            w good bad)
  ∧ @patchServiceFinalizer _ Fake.diffless_encoders sc (Some 1%positive) (Some 2%positive)
      (w good good')
    = Some (Some ("failed to create TwoWayMergePatch for service default/db: "
                  +:+ "unable to find api field in struct"),
            w good good')
  ∧ ∃ w', @patchServiceFinalizer _ Fake.encoders sc (Some 1%positive) (Some 2%positive)
            (w good good') = Some (None, w')
          ∧ length (requests w') = 1.
Proof.
  intros good good' bad sc w.
  split; [|split; [|split]].
  - exact (proj1 (@patchServiceFinalizer_outcomes _ Fake.encoders sc 1%positive 2%positive
                    bad bad (w bad bad) eq_refl eq_refl) _ eq_refl).
  - exact (proj1 (proj2 (@patchServiceFinalizer_outcomes _ Fake.encoders sc 1%positive
                           2%positive good bad (w good bad) eq_refl eq_refl))
             _ eq_refl eq_refl).
  - exact (proj1 (proj2 (proj2 (@patchServiceFinalizer_outcomes _ Fake.diffless_encoders sc
                                  1%positive 2%positive good good' (w good good')
                                  eq_refl eq_refl)))
             _ eq_refl eq_refl eq_refl).
  - destruct (proj2 (proj2 (proj2 (@patchServiceFinalizer_outcomes _ Fake.encoders sc
                                     1%positive 2%positive good good' (w good good')
                                     eq_refl eq_refl)))
                eq_refl eq_refl eq_refl) as (w' & Hrun & _ & Hreq).
    exists w'. split; [exact Hrun|]. rewrite Hreq. reflexivity.
Defined.

(** Scenario 5 of the spec: the store accepts the patch for ["db"], and
    answers "not found" for a service it does not hold. *)
Lemma service_operations_return_store_answer_witness :
  let s := Fake.service None ["A"] in
  let lost := corev1.mkService (Fake.meta "lost" None ["A"]) "ports" "" in
  (∃ w', @EnsureServiceFinalizer _ Fake.encoders (Some 1%positive) "B" Fake.kubeClient
           (Fake.world (Fake.ingress None []) s) = Some (None, w'))
  ∧ (∃ w', @EnsureDeleteServiceFinalizer _ Fake.encoders (Some 1%positive) "A"
             Fake.kubeClient (Fake.world (Fake.ingress None []) lost)
           = Some (Some "services lost not found", w')).
Proof.
  intros s lost. split.
  - edestruct (@service_operations_return_store_answer _ Fake.encoders Fake.kubeClient
                 1%positive s "B" (Fake.world (Fake.ingress None []) s) ["A"; "B"])
      as [Hadd _]; [reflexivity..|].
    destruct Hadd as (w' & Hrun & _); [by_computation|reflexivity|].
    by exists w'.
  - edestruct (@service_operations_return_store_answer _ Fake.encoders Fake.kubeClient
                 1%positive lost "A" (Fake.world (Fake.ingress None []) lost) [])
      as [_ Hdel]; [reflexivity..|].
    destruct Hdel as (w' & Hrun & _); [by_computation|reflexivity|].
    by exists w'.
Defined.

(** The same object twice: two requests. *)
Lemma EnsureServiceFinalizer_repeats_on_unrefreshed_object_witness :
  let s := Fake.service None ["A"] in
  let w := Fake.world (Fake.ingress None []) s in
  ∃ r1 w1 r2 w2,
    @EnsureServiceFinalizer _ Fake.encoders (Some 1%positive) "B" Fake.kubeClient w
    = Some (r1, w1)
    ∧ @EnsureServiceFinalizer _ Fake.encoders (Some 1%positive) "B" Fake.kubeClient w1
      = Some (r2, w2)
    ∧ length (requests w2) = 2.
Proof.
  intros s w.
  edestruct (@EnsureServiceFinalizer_repeats_on_unrefreshed_object _ Fake.encoders
               Fake.kubeClient 1%positive s "B" w)
    as (r1 & w1 & r2 & w2 & Hrun1 & Hrun2 & Hreq & _);
    [reflexivity|by_computation|reflexivity..|].
  exists r1, w1, r2, w2. split; [exact Hrun1|]. split; [exact Hrun2|].
  rewrite Hreq. reflexivity.
Defined.

(** Scenario 5 of the spec: ["B"] comes, ["A"] stays; then ["A"] goes, ["B"]
    stays. *)
Lemma service_operations_touch_only_their_token_witness :
  (∃ r w' s',
     @EnsureServiceFinalizer _ Fake.encoders (Some 1%positive) "B" Fake.kubeClient
       (Fake.world (Fake.ingress None []) (Fake.service None ["A"])) = Some (r, w')
     ∧ services w' !! 2%positive = Some s'
     ∧ HasGivenFinalizer (corev1.ObjectMeta s') "A" = true
     ∧ HasGivenFinalizer (corev1.ObjectMeta s') "B" = true)
  ∧ (∃ r w' s',
       @EnsureDeleteServiceFinalizer _ Fake.encoders (Some 1%positive) "A" Fake.kubeClient
         (Fake.world (Fake.ingress None []) (Fake.service None ["A"; "B"])) = Some (r, w')
       ∧ services w' !! 2%positive = Some s'
       ∧ HasGivenFinalizer (corev1.ObjectMeta s') "A" = false
       ∧ HasGivenFinalizer (corev1.ObjectMeta s') "B" = true).
Proof.
  split.
  - destruct (@service_operations_touch_only_their_token _ Fake.encoders Fake.kubeClient
                1%positive (Fake.service None ["A"]) "B"
                (Fake.world (Fake.ingress None []) (Fake.service None ["A"])) eq_refl)
      as [Hadd _].
    destruct Hadd as (r & w' & s' & Hrun & Hcopy & Hhas & Hother & _); [by_computation|].
    exists r, w', s'. split; [exact Hrun|]. split; [exact Hcopy|].
    split; [|exact Hhas]. rewrite (Hother "A") by discriminate. reflexivity.
  - destruct (@service_operations_touch_only_their_token _ Fake.encoders Fake.kubeClient
                1%positive (Fake.service None ["A"; "B"]) "A"
                (Fake.world (Fake.ingress None []) (Fake.service None ["A"; "B"])) eq_refl)
      as [_ Hdel].
    destruct Hdel as (r & w' & s' & Hrun & Hcopy & Hhas & Hother & _); [by_computation|].
    exists r, w', s'. split; [exact Hrun|]. split; [exact Hcopy|].
    split; [exact Hhas|]. rewrite (Hother "B") by discriminate. reflexivity.
Defined.
